(** * Keyword Insight: rescaling of the relative trend series and the
      ad-API volume fetcher of [app_final_1769505626408.py]

    The Python reals of the rescaling block (the DataLab ratios, the
    multiplier and the growth percentages, which are floats in the source)
    are modelled as exact rationals [Q], and the rescaling block also in
    binary64 arithmetic, each operation rounded to the nearest double
    ([fl], [multiplier_f], [search_volume_f]); the integers of the source
    ([current_total_vol], the [검색량] column after [astype(int)]) are [Z].
    Python [str] values are modelled as Rocq strings whose characters are
    the bytes of their UTF-8 encoding, so [bytes(s, "utf-8")] is the
    identity on them. *)

From Stdlib Require Import ZArith NArith QArith Qabs Qround Lqa List String Ascii Bool Lia.
Import ListNotations.

Set Warnings "-register-all".

Open Scope Z_scope.

(** ** Rounding: [Series.round(0)] of pandas *)

(** [Series.round(0)] delegates to [numpy.around], which rounds to the
    nearest integer and breaks exact ties towards the even neighbour. The
    [astype(int)] that follows is exact on the integral result. *)
Definition round_half_even (q : Q) : Z :=
  let f := Qfloor q in
  match Qcompare (q - inject_Z f) (1 # 2) with
  | Lt => f
  | Gt => f + 1
  | Eq => if Z.even f then f else f + 1
  end.

(** ** The rescaling block (lines 173-182) *)

(** One row of the DataFrame built from [raw_data['results'][0]['data']];
    its columns are renamed [날짜] (the period label) and [비율] (the ratio). *)
Record point := mk_point { period : string; ratio : Q }.

Definition no_point : point := mk_point "" 0.

Definition Qltb (a b : Q) : bool :=
  match Qcompare a b with Lt => true | _ => false end.

(** [last_ratio = df.iloc[-1]['비율']]. *)
Definition last_ratio (pts : list point) : Q := ratio (last pts no_point).

(** [multiplier = current_total_vol / last_ratio if last_ratio > 0 else 0]. *)
Definition multiplier (current_total_vol : Z) (pts : list point) : Q :=
  let lr := last_ratio pts in
  if Qltb 0 lr then inject_Z current_total_vol / lr else 0.

(** [df['검색량'] = (df['비율'] * multiplier).round(0).astype(int)]. *)
Definition search_volume (current_total_vol : Z) (pts : list point) : list Z :=
  let m := multiplier current_total_vol pts in
  map (fun p => round_half_even (ratio p * m)) pts.

(** *** The same block in binary64 arithmetic

    The ratios and the multiplier are Python floats and the product is a
    numpy [float64] column, so each operation of the block is rounded to
    the nearest double, ties to even.  [fl] is that rounding on the
    rationals: the exponent [e] puts [|q| / 2^e] in [[2^52, 2^53)] and is
    clamped at [-1074], the exponent of the subnormals; overflow to
    infinity is not modelled.  The ratios are taken to be doubles already,
    as [json] produces them. *)
Definition fl (q : Q) : Q :=
  let a := Qabs q in
  if Qeq_bool a 0 then 0 else
  let d := (Z.log2 (Qnum a) - Z.log2 (Zpos (Qden a)))%Z in
  let k := if Qle_bool (Qpower (inject_Z 2) d) a then d else (d - 1)%Z in
  let e := Z.max (k - 52) (-1074) in
  let m := round_half_even (a / Qpower (inject_Z 2) e) in
  (if Qltb q 0 then -1 else 1) * (inject_Z m * Qpower (inject_Z 2) e).

(** [multiplier = current_total_vol / last_ratio if last_ratio > 0 else 0]:
    the integer is converted to a double, then the quotient is rounded. *)
Definition multiplier_f (current_total_vol : Z) (pts : list point) : Q :=
  let lr := last_ratio pts in
  if Qltb 0 lr then fl (fl (inject_Z current_total_vol) / lr) else 0.

(** [(df['비율'] * multiplier).round(0).astype(int)]: the product is a
    rounded double; [round(0)] is exact round-half-even on it. *)
Definition search_volume_f (current_total_vol : Z) (pts : list point) : list Z :=
  let m := multiplier_f current_total_vol pts in
  map (fun p => round_half_even (fl (ratio p * m))) pts.

(** ** Growth rates (lines 186-200) *)

(** [df.iloc[-k]] on the [검색량] column, for [1 <= k <= len(df)]. *)
Definition iloc_neg (v : list Z) (k : nat) : Z := nth (List.length v - k) v 0.

(** [((curr - prev) / prev) * 100]: true division of two integers. *)
Definition pct (curr prev : Z) : Q :=
  (inject_Z (curr - prev) / inject_Z prev) * 100.

Record growth := mk_growth { mom_growth : Q; yoy_growth : Q; has_yoy : bool }.

Definition growth_metrics (v : list Z) : growth :=
  let mom :=
    if (2 <=? List.length v)%nat then
      let curr := iloc_neg v 1 in
      let prev := iloc_neg v 2 in
      if 0 <? prev then pct curr prev else 0%Q
    else 0%Q in
  let '(yoy, has) :=
    if (13 <=? List.length v)%nat then
      let curr := iloc_neg v 1 in
      let prev_yr := iloc_neg v 13 in
      if 0 <? prev_yr then (pct curr prev_yr, true) else (0%Q, false)
    else (0%Q, false) in
  mk_growth mom yoy has.

(** ** Python values, exceptions and the string helpers of the fetcher *)

Module Py.

(** The Python values that reach [get_total_volume]: the decoded JSON of
    the ad API response, the [keys] bundle built by [load_api_keys], and the
    headers dict. Dicts are association lists with string keys, looked up by
    the first binding (their keys are distinct). *)
Inductive pyval :=
| PNone
| PBool (b : bool)
| PInt (z : Z)
| PStr (s : string)
| PBytes (s : string)
| PList (l : list pyval)
| PDict (d : list (string * pyval)).

(** The exceptions the statements of [get_total_volume] can raise. *)
Inductive exn :=
| KeyError (k : string)
| KeyErrorIdx (i : Z)
| IndexError (m : string)
| TypeError (m : string)
| AttributeError (m : string)
| ValueError (m : string)
| JSONDecodeError (m : string)
| RequestException (m : string).

(** A computation that returns a value or raises. *)
Inductive except (A : Type) :=
| Ok (a : A)
| Exc (e : exn).
Arguments Ok {A} a.
Arguments Exc {A} e.

Definition bind {A B} (m : except A) (k : A -> except B) : except B :=
  match m with Ok a => k a | Exc e => Exc e end.

Notation "x <- m ;; k" := (bind m (fun x => k))
  (at level 61, m at next level, right associativity).

Definition is_ok {A} (m : except A) : bool :=
  match m with Ok _ => true | Exc _ => false end.

(** Decimal rendering of [str(int)]. *)
Fixpoint digits_rev (fuel : nat) (n : N) : list ascii :=
  match fuel with
  | O => []
  | S f =>
      ascii_of_N (48 + N.modulo n 10)
        :: (if (n <? 10)%N then [] else digits_rev f (N.div n 10))
  end.

Definition str_of_Z (z : Z) : string :=
  let n := Z.abs_N z in
  let ds := string_of_list_ascii (rev (digits_rev (N.size_nat n + 1) n)) in
  if z <? 0 then ("-" ++ ds)%string else ds.

(** *** Characters

    A Python [str] is held as the bytes of its UTF-8 encoding (the strings
    of the program are valid UTF-8); what works on characters decodes it
    into code points first. *)

Definition byte_of (c : ascii) : Z := Z.of_nat (nat_of_ascii c).

Fixpoint utf8_decode (l : list ascii) : list Z :=
  match l with
  | [] => []
  | c :: r =>
      let b := byte_of c in
      if b <? 192 then b :: utf8_decode r
      else if b <? 224 then
        match r with
        | c1 :: r1 => ((b - 192) * 64 + (byte_of c1 - 128)) :: utf8_decode r1
        | [] => [b]
        end
      else if b <? 240 then
        match r with
        | c1 :: c2 :: r2 =>
            ((b - 224) * 4096 + (byte_of c1 - 128) * 64 + (byte_of c2 - 128))
              :: utf8_decode r2
        | _ => b :: utf8_decode r
        end
      else
        match r with
        | c1 :: c2 :: c3 :: r3 =>
            ((b - 240) * 262144 + (byte_of c1 - 128) * 4096
             + (byte_of c2 - 128) * 64 + (byte_of c3 - 128))
              :: utf8_decode r3
        | _ => b :: utf8_decode r
        end
  end.

Definition byte (z : Z) : ascii := ascii_of_nat (Z.to_nat z).

Definition utf8_encode_cp (n : Z) : list ascii :=
  if n <? 128 then [byte n]
  else if n <? 2048 then [byte (192 + n / 64); byte (128 + n mod 64)]
  else if n <? 65536 then
    [byte (224 + n / 4096); byte (128 + (n / 64) mod 64); byte (128 + n mod 64)]
  else [byte (240 + n / 262144); byte (128 + (n / 4096) mod 64);
        byte (128 + (n / 64) mod 64); byte (128 + n mod 64)].

(** The code points of a [str]. *)
Definition cps (s : string) : list Z := utf8_decode (list_ascii_of_string s).

(** The [str] of a list of code points. *)
Definition str_of_cps (l : list Z) : string :=
  string_of_list_ascii (flat_map utf8_encode_cp l).

(** [c.isspace()]. *)
Definition is_space_cp (c : Z) : bool :=
  ((9 <=? c) && (c <=? 13)) || ((28 <=? c) && (c <=? 32))
  || (c =? 133) || (c =? 160) || (c =? 5760)
  || ((8192 <=? c) && (c <=? 8202)) || (c =? 8232) || (c =? 8233)
  || (c =? 8239) || (c =? 8287) || (c =? 12288).

Fixpoint drop_while (p : Z -> bool) (l : list Z) : list Z :=
  match l with
  | c :: r => if p c then drop_while p r else l
  | [] => []
  end.

(** Both ends of a list of code points without the characters [p] holds of. *)
Definition trim (p : Z -> bool) (l : list Z) : list Z :=
  rev (drop_while p (rev (drop_while p l))).

(** [s.strip()]. *)
Definition strip (s : string) : string := str_of_cps (trim is_space_cp (cps s)).

(** [s.replace(" ", "")]: every U+0020 removed, other characters kept (the
    byte 0x20 occurs in UTF-8 only as U+0020). *)
Definition remove_spaces (s : string) : string :=
  string_of_list_ascii
    (filter (fun c => negb (Ascii.eqb c " "%char)) (list_ascii_of_string s)).

(** *** [int()] of a [str] or [bytes]

    [int(s)] on a [str] turns every whitespace character into a space and
    every Unicode decimal digit into its ASCII digit, then skips the ASCII
    whitespace [\t\n\v\f\r] and space at both ends: the characters
    U+001C..U+001F, for which [isspace()] holds, are not skipped. On
    [bytes] only ASCII whitespace and digits count. What is left is an
    optional sign and decimal digits, single underscores allowed between
    digits. *)

(** The first code points of the blocks of ten decimal digits outside
    ASCII (Unicode 14.0.0, the database of CPython 3.11). *)
Definition decimal_blocks : list Z :=
  [1632; 1776; 1984; 2406; 2534; 2662; 2790; 2918;
   3046; 3174; 3302; 3430; 3558; 3664; 3792; 3872;
   4160; 4240; 6112; 6160; 6470; 6608; 6784; 6800;
   6992; 7088; 7232; 7248; 42528; 43216; 43264; 43472;
   43504; 43600; 44016; 65296; 66720; 68912; 69734; 69872;
   69942; 70096; 70384; 70736; 70864; 71248; 71360; 71472;
   71904; 72016; 72784; 73040; 73120; 92768; 92864; 93008;
   120782; 120792; 120802; 120812; 120822; 123200; 123632; 125264;
   130032].

Definition is_int_space_cp (c : Z) : bool :=
  is_space_cp c && negb ((28 <=? c) && (c <=? 31)).

Definition is_ascii_space (c : Z) : bool := ((9 <=? c) && (c <=? 13)) || (c =? 32).

Definition ascii_digit (c : Z) : option Z :=
  if (48 <=? c) && (c <=? 57) then Some (c - 48) else None.

(** The value of a decimal digit character. *)
Definition decimal_value (c : Z) : option Z :=
  match ascii_digit c with
  | Some d => Some d
  | None =>
      match find (fun z => (z <=? c) && (c <? z + 10)) decimal_blocks with
      | Some z => Some (c - z)
      | None => None
      end
  end.

Fixpoint parse_digits (digit : Z -> option Z) (l : list Z) (acc : Z) (after_digit : bool)
  : option Z :=
  match l with
  | [] => if after_digit then Some acc else None
  | c :: r =>
      match digit c with
      | Some d => parse_digits digit r (acc * 10 + d) true
      | None =>
          if (c =? 95) && after_digit then
            match r with
            | d :: _ =>
                match digit d with
                | Some _ => parse_digits digit r acc false
                | None => None
                end
            | [] => None
            end
          else None
      end
  end.

Definition parse_int_with (space : Z -> bool) (digit : Z -> option Z) (l : list Z)
  : option Z :=
  match trim space l with
  | c :: r =>
      if c =? 45 then option_map Z.opp (parse_digits digit r 0 false)
      else if c =? 43 then parse_digits digit r 0 false
      else parse_digits digit (c :: r) 0 false
  | [] => None
  end.

(** [int(s)] for a [str] [s]. *)
Definition parse_int (s : string) : option Z :=
  parse_int_with is_int_space_cp decimal_value (cps s).

(** [int(b)] for a [bytes] [b]. *)
Definition parse_int_bytes (s : string) : option Z :=
  parse_int_with is_ascii_space ascii_digit (map byte_of (list_ascii_of_string s)).

(** *** [repr()] of a [str] or [bytes] *)

(** The ranges of non-ASCII code points for which [str.isprintable()]
    is false (same database). *)
Definition nonprintable_ranges : list (Z * Z) :=
  [(128, 160); (173, 173); (888, 889); (896, 899); (907, 907);
   (909, 909); (930, 930); (1328, 1328); (1367, 1368); (1419, 1420);
   (1424, 1424); (1480, 1487); (1515, 1518); (1525, 1541); (1564, 1564);
   (1757, 1757); (1806, 1807); (1867, 1868); (1970, 1983); (2043, 2044);
   (2094, 2095); (2111, 2111); (2140, 2141); (2143, 2143); (2155, 2159);
   (2191, 2199); (2274, 2274); (2436, 2436); (2445, 2446); (2449, 2450);
   (2473, 2473); (2481, 2481); (2483, 2485); (2490, 2491); (2501, 2502);
   (2505, 2506); (2511, 2518); (2520, 2523); (2526, 2526); (2532, 2533);
   (2559, 2560); (2564, 2564); (2571, 2574); (2577, 2578); (2601, 2601);
   (2609, 2609); (2612, 2612); (2615, 2615); (2618, 2619); (2621, 2621);
   (2627, 2630); (2633, 2634); (2638, 2640); (2642, 2648); (2653, 2653);
   (2655, 2661); (2679, 2688); (2692, 2692); (2702, 2702); (2706, 2706);
   (2729, 2729); (2737, 2737); (2740, 2740); (2746, 2747); (2758, 2758);
   (2762, 2762); (2766, 2767); (2769, 2783); (2788, 2789); (2802, 2808);
   (2816, 2816); (2820, 2820); (2829, 2830); (2833, 2834); (2857, 2857);
   (2865, 2865); (2868, 2868); (2874, 2875); (2885, 2886); (2889, 2890);
   (2894, 2900); (2904, 2907); (2910, 2910); (2916, 2917); (2936, 2945);
   (2948, 2948); (2955, 2957); (2961, 2961); (2966, 2968); (2971, 2971);
   (2973, 2973); (2976, 2978); (2981, 2983); (2987, 2989); (3002, 3005);
   (3011, 3013); (3017, 3017); (3022, 3023); (3025, 3030); (3032, 3045);
   (3067, 3071); (3085, 3085); (3089, 3089); (3113, 3113); (3130, 3131);
   (3141, 3141); (3145, 3145); (3150, 3156); (3159, 3159); (3163, 3164);
   (3166, 3167); (3172, 3173); (3184, 3190); (3213, 3213); (3217, 3217);
   (3241, 3241); (3252, 3252); (3258, 3259); (3269, 3269); (3273, 3273);
   (3278, 3284); (3287, 3292); (3295, 3295); (3300, 3301); (3312, 3312);
   (3315, 3327); (3341, 3341); (3345, 3345); (3397, 3397); (3401, 3401);
   (3408, 3411); (3428, 3429); (3456, 3456); (3460, 3460); (3479, 3481);
   (3506, 3506); (3516, 3516); (3518, 3519); (3527, 3529); (3531, 3534);
   (3541, 3541); (3543, 3543); (3552, 3557); (3568, 3569); (3573, 3584);
   (3643, 3646); (3676, 3712); (3715, 3715); (3717, 3717); (3723, 3723);
   (3748, 3748); (3750, 3750); (3774, 3775); (3781, 3781); (3783, 3783);
   (3790, 3791); (3802, 3803); (3808, 3839); (3912, 3912); (3949, 3952);
   (3992, 3992); (4029, 4029); (4045, 4045); (4059, 4095); (4294, 4294);
   (4296, 4300); (4302, 4303); (4681, 4681); (4686, 4687); (4695, 4695);
   (4697, 4697); (4702, 4703); (4745, 4745); (4750, 4751); (4785, 4785);
   (4790, 4791); (4799, 4799); (4801, 4801); (4806, 4807); (4823, 4823);
   (4881, 4881); (4886, 4887); (4955, 4956); (4989, 4991); (5018, 5023);
   (5110, 5111); (5118, 5119); (5760, 5760); (5789, 5791); (5881, 5887);
   (5910, 5918); (5943, 5951); (5972, 5983); (5997, 5997); (6001, 6001);
   (6004, 6015); (6110, 6111); (6122, 6127); (6138, 6143); (6158, 6158);
   (6170, 6175); (6265, 6271); (6315, 6319); (6390, 6399); (6431, 6431);
   (6444, 6447); (6460, 6463); (6465, 6467); (6510, 6511); (6517, 6527);
   (6572, 6575); (6602, 6607); (6619, 6621); (6684, 6685); (6751, 6751);
   (6781, 6782); (6794, 6799); (6810, 6815); (6830, 6831); (6863, 6911);
   (6989, 6991); (7039, 7039); (7156, 7163); (7224, 7226); (7242, 7244);
   (7305, 7311); (7355, 7356); (7368, 7375); (7419, 7423); (7958, 7959);
   (7966, 7967); (8006, 8007); (8014, 8015); (8024, 8024); (8026, 8026);
   (8028, 8028); (8030, 8030); (8062, 8063); (8117, 8117); (8133, 8133);
   (8148, 8149); (8156, 8156); (8176, 8177); (8181, 8181); (8191, 8207);
   (8232, 8239); (8287, 8303); (8306, 8307); (8335, 8335); (8349, 8351);
   (8385, 8399); (8433, 8447); (8588, 8591); (9255, 9279); (9291, 9311);
   (11124, 11125); (11158, 11158); (11508, 11512); (11558, 11558); (11560, 11564);
   (11566, 11567); (11624, 11630); (11633, 11646); (11671, 11679); (11687, 11687);
   (11695, 11695); (11703, 11703); (11711, 11711); (11719, 11719); (11727, 11727);
   (11735, 11735); (11743, 11743); (11870, 11903); (11930, 11930); (12020, 12031);
   (12246, 12271); (12284, 12288); (12352, 12352); (12439, 12440); (12544, 12548);
   (12592, 12592); (12687, 12687); (12772, 12783); (12831, 12831); (42125, 42127);
   (42183, 42191); (42540, 42559); (42744, 42751); (42955, 42959); (42962, 42962);
   (42964, 42964); (42970, 42993); (43053, 43055); (43066, 43071); (43128, 43135);
   (43206, 43213); (43226, 43231); (43348, 43358); (43389, 43391); (43470, 43470);
   (43482, 43485); (43519, 43519); (43575, 43583); (43598, 43599); (43610, 43611);
   (43715, 43738); (43767, 43776); (43783, 43784); (43791, 43792); (43799, 43807);
   (43815, 43815); (43823, 43823); (43884, 43887); (44014, 44015); (44026, 44031);
   (55204, 55215); (55239, 55242); (55292, 63743); (64110, 64111); (64218, 64255);
   (64263, 64274); (64280, 64284); (64311, 64311); (64317, 64317); (64319, 64319);
   (64322, 64322); (64325, 64325); (64451, 64466); (64912, 64913); (64968, 64974);
   (64976, 65007); (65050, 65055); (65107, 65107); (65127, 65127); (65132, 65135);
   (65141, 65141); (65277, 65280); (65471, 65473); (65480, 65481); (65488, 65489);
   (65496, 65497); (65501, 65503); (65511, 65511); (65519, 65531); (65534, 65535);
   (65548, 65548); (65575, 65575); (65595, 65595); (65598, 65598); (65614, 65615);
   (65630, 65663); (65787, 65791); (65795, 65798); (65844, 65846); (65935, 65935);
   (65949, 65951); (65953, 65999); (66046, 66175); (66205, 66207); (66257, 66271);
   (66300, 66303); (66340, 66348); (66379, 66383); (66427, 66431); (66462, 66462);
   (66500, 66503); (66518, 66559); (66718, 66719); (66730, 66735); (66772, 66775);
   (66812, 66815); (66856, 66863); (66916, 66926); (66939, 66939); (66955, 66955);
   (66963, 66963); (66966, 66966); (66978, 66978); (66994, 66994); (67002, 67002);
   (67005, 67071); (67383, 67391); (67414, 67423); (67432, 67455); (67462, 67462);
   (67505, 67505); (67515, 67583); (67590, 67591); (67593, 67593); (67638, 67638);
   (67641, 67643); (67645, 67646); (67670, 67670); (67743, 67750); (67760, 67807);
   (67827, 67827); (67830, 67834); (67868, 67870); (67898, 67902); (67904, 67967);
   (68024, 68027); (68048, 68049); (68100, 68100); (68103, 68107); (68116, 68116);
   (68120, 68120); (68150, 68151); (68155, 68158); (68169, 68175); (68185, 68191);
   (68256, 68287); (68327, 68330); (68343, 68351); (68406, 68408); (68438, 68439);
   (68467, 68471); (68498, 68504); (68509, 68520); (68528, 68607); (68681, 68735);
   (68787, 68799); (68851, 68857); (68904, 68911); (68922, 69215); (69247, 69247);
   (69290, 69290); (69294, 69295); (69298, 69375); (69416, 69423); (69466, 69487);
   (69514, 69551); (69580, 69599); (69623, 69631); (69710, 69713); (69750, 69758);
   (69821, 69821); (69827, 69839); (69865, 69871); (69882, 69887); (69941, 69941);
   (69960, 69967); (70007, 70015); (70112, 70112); (70133, 70143); (70162, 70162);
   (70207, 70271); (70279, 70279); (70281, 70281); (70286, 70286); (70302, 70302);
   (70314, 70319); (70379, 70383); (70394, 70399); (70404, 70404); (70413, 70414);
   (70417, 70418); (70441, 70441); (70449, 70449); (70452, 70452); (70458, 70458);
   (70469, 70470); (70473, 70474); (70478, 70479); (70481, 70486); (70488, 70492);
   (70500, 70501); (70509, 70511); (70517, 70655); (70748, 70748); (70754, 70783);
   (70856, 70863); (70874, 71039); (71094, 71095); (71134, 71167); (71237, 71247);
   (71258, 71263); (71277, 71295); (71354, 71359); (71370, 71423); (71451, 71452);
   (71468, 71471); (71495, 71679); (71740, 71839); (71923, 71934); (71943, 71944);
   (71946, 71947); (71956, 71956); (71959, 71959); (71990, 71990); (71993, 71994);
   (72007, 72015); (72026, 72095); (72104, 72105); (72152, 72153); (72165, 72191);
   (72264, 72271); (72355, 72367); (72441, 72703); (72713, 72713); (72759, 72759);
   (72774, 72783); (72813, 72815); (72848, 72849); (72872, 72872); (72887, 72959);
   (72967, 72967); (72970, 72970); (73015, 73017); (73019, 73019); (73022, 73022);
   (73032, 73039); (73050, 73055); (73062, 73062); (73065, 73065); (73103, 73103);
   (73106, 73106); (73113, 73119); (73130, 73439); (73465, 73647); (73649, 73663);
   (73714, 73726); (74650, 74751); (74863, 74863); (74869, 74879); (75076, 77711);
   (77811, 77823); (78895, 82943); (83527, 92159); (92729, 92735); (92767, 92767);
   (92778, 92781); (92863, 92863); (92874, 92879); (92910, 92911); (92918, 92927);
   (92998, 93007); (93018, 93018); (93026, 93026); (93048, 93052); (93072, 93759);
   (93851, 93951); (94027, 94030); (94088, 94094); (94112, 94175); (94181, 94191);
   (94194, 94207); (100344, 100351); (101590, 101631); (101641, 110575); (110580, 110580);
   (110588, 110588); (110591, 110591); (110883, 110927); (110931, 110947); (110952, 110959);
   (111356, 113663); (113771, 113775); (113789, 113791); (113801, 113807); (113818, 113819);
   (113824, 118527); (118574, 118575); (118599, 118607); (118724, 118783); (119030, 119039);
   (119079, 119080); (119155, 119162); (119275, 119295); (119366, 119519); (119540, 119551);
   (119639, 119647); (119673, 119807); (119893, 119893); (119965, 119965); (119968, 119969);
   (119971, 119972); (119975, 119976); (119981, 119981); (119994, 119994); (119996, 119996);
   (120004, 120004); (120070, 120070); (120075, 120076); (120085, 120085); (120093, 120093);
   (120122, 120122); (120127, 120127); (120133, 120133); (120135, 120137); (120145, 120145);
   (120486, 120487); (120780, 120781); (121484, 121498); (121504, 121504); (121520, 122623);
   (122655, 122879); (122887, 122887); (122905, 122906); (122914, 122914); (122917, 122917);
   (122923, 123135); (123181, 123183); (123198, 123199); (123210, 123213); (123216, 123535);
   (123567, 123583); (123642, 123646); (123648, 124895); (124903, 124903); (124908, 124908);
   (124911, 124911); (124927, 124927); (125125, 125126); (125143, 125183); (125260, 125263);
   (125274, 125277); (125280, 126064); (126133, 126208); (126270, 126463); (126468, 126468);
   (126496, 126496); (126499, 126499); (126501, 126502); (126504, 126504); (126515, 126515);
   (126520, 126520); (126522, 126522); (126524, 126529); (126531, 126534); (126536, 126536);
   (126538, 126538); (126540, 126540); (126544, 126544); (126547, 126547); (126549, 126550);
   (126552, 126552); (126554, 126554); (126556, 126556); (126558, 126558); (126560, 126560);
   (126563, 126563); (126565, 126566); (126571, 126571); (126579, 126579); (126584, 126584);
   (126589, 126589); (126591, 126591); (126602, 126602); (126620, 126624); (126628, 126628);
   (126634, 126634); (126652, 126703); (126706, 126975); (127020, 127023); (127124, 127135);
   (127151, 127152); (127168, 127168); (127184, 127184); (127222, 127231); (127406, 127461);
   (127491, 127503); (127548, 127551); (127561, 127567); (127570, 127583); (127590, 127743);
   (128728, 128732); (128749, 128751); (128765, 128767); (128884, 128895); (128985, 128991);
   (129004, 129007); (129009, 129023); (129036, 129039); (129096, 129103); (129114, 129119);
   (129160, 129167); (129198, 129199); (129202, 129279); (129620, 129631); (129646, 129647);
   (129653, 129655); (129661, 129663); (129671, 129679); (129709, 129711); (129723, 129727);
   (129734, 129743); (129754, 129759); (129768, 129775); (129783, 129791); (129939, 129939);
   (129995, 130031); (130042, 131071); (173792, 173823); (177977, 177983); (178206, 178207);
   (183970, 183983); (191457, 194559); (195102, 196607); (201547, 917759); (918000, 1114111)].

(** [c.isprintable()]. *)
Definition is_printable_cp (c : Z) : bool :=
  if c <? 128 then (32 <=? c) && (c <? 127)
  else negb (existsb (fun r => (fst r <=? c) && (c <=? snd r)) nonprintable_ranges).

Definition hex_cp (d : Z) : Z := if d <? 10 then 48 + d else 87 + d.

(** [w] lowercase hexadecimal digits of [n]. *)
Fixpoint hex_cps (w : nat) (n : Z) : list Z :=
  match w with
  | O => []
  | S k => hex_cps k (n / 16) ++ [hex_cp (n mod 16)]
  end.

(** The delimiter [repr] picks: a single quote, unless the text holds a
    single quote and no double quote. *)
Definition repr_quote (l : list Z) : Z :=
  if existsb (Z.eqb 39) l && negb (existsb (Z.eqb 34) l) then 34 else 39.

(** One character (or byte, in [bytes_mode]) inside a [repr] delimited by
    [q]. *)
Definition repr_cp (bytes_mode : bool) (q c : Z) : list Z :=
  if c =? 92 then [92; 92]
  else if c =? q then [92; q]
  else if c =? 9 then [92; 116]
  else if c =? 10 then [92; 110]
  else if c =? 13 then [92; 114]
  else if (if bytes_mode then (32 <=? c) && (c <? 127) else is_printable_cp c) then [c]
  else if c <? 256 then 92 :: 120 :: hex_cps 2 c
  else if c <? 65536 then 92 :: 117 :: hex_cps 4 c
  else 92 :: 85 :: hex_cps 8 c.

Definition repr_cps (bytes_mode : bool) (l : list Z) : list Z :=
  let q := repr_quote l in
  (if bytes_mode then [98] else []) ++ [q] ++ flat_map (repr_cp bytes_mode q) l ++ [q].

(** [repr(s)] of a [str] and of a [bytes] object. *)
Definition repr_str (s : string) : string := str_of_cps (repr_cps false (cps s)).
Definition repr_bytes (s : string) : string :=
  str_of_cps (repr_cps true (map byte_of (list_ascii_of_string s))).

(** [int()]'s message: [%.200R], the [repr] cut after 200 characters. *)
Definition invalid_literal (r : list Z) : string :=
  "invalid literal for int() with base 10: " ++ str_of_cps (firstn 200 r).

Fixpoint assoc (k : string) (d : list (string * pyval)) : option pyval :=
  match d with
  | [] => None
  | (k', v) :: r => if String.eqb k k' then Some v else assoc k r
  end.

Definition type_name (v : pyval) : string :=
  match v with
  | PNone => "NoneType" | PBool _ => "bool" | PInt _ => "int"
  | PStr _ => "str" | PBytes _ => "bytes" | PList _ => "list"
  | PDict _ => "dict"
  end.

(** [v[k]] with a string key. *)
Definition getitem (v : pyval) (k : string) : except pyval :=
  match v with
  | PDict d =>
      match assoc k d with Some x => Ok x | None => Exc (KeyError k) end
  | PList _ => Exc (TypeError "list indices must be integers or slices, not str")
  | PStr _ => Exc (TypeError "string indices must be integers, not 'str'")
  | PBytes _ => Exc (TypeError "byte indices must be integers or slices, not str")
  | _ => Exc (TypeError ("'" ++ type_name v ++ "' object is not subscriptable"))
  end.

(** [v.get(k, default)]. *)
Definition dict_get (v : pyval) (k : string) (default : pyval) : except pyval :=
  match v with
  | PDict d => Ok (match assoc k d with Some x => x | None => default end)
  | _ => Exc (AttributeError ("'" ++ type_name v ++ "' object has no attribute 'get'"))
  end.

(** [v.replace(" ", "")]. *)
Definition replace_spaces (v : pyval) : except string :=
  match v with
  | PStr s => Ok (remove_spaces s)
  | PBytes _ => Exc (TypeError "a bytes-like object is required, not 'str'")
  | _ => Exc (AttributeError ("'" ++ type_name v ++ "' object has no attribute 'replace'"))
  end.

(** [bytes(v.strip(), "utf-8")]: a [str] is stripped; [bytes.strip()]
    returns bytes, which [bytes(_, "utf-8")] refuses. *)
Definition strip_to_str (v : pyval) : except string :=
  match v with
  | PStr s => Ok (strip s)
  | PBytes _ => Exc (TypeError "encoding without a string argument")
  | _ => Exc (AttributeError ("'" ++ type_name v ++ "' object has no attribute 'strip'"))
  end.

(** [str(v).startswith("<")]. [str] of [None], a bool, an int, bytes, a
    list or a dict begins with one of [N T F - 0-9 b \[ {], never with [<]. *)
Definition str_startswith_lt (v : pyval) : bool :=
  match v with
  | PStr s => String.prefix "<" s
  | _ => false
  end.

(** [int(v)]. *)
Definition py_int (v : pyval) : except Z :=
  match v with
  | PInt z => Ok z
  | PBool b => Ok (if b then 1 else 0)
  | PStr s =>
      match parse_int s with
      | Some z => Ok z
      | None => Exc (ValueError (invalid_literal (repr_cps false (cps s))))
      end
  | PBytes s =>
      match parse_int_bytes s with
      | Some z => Ok z
      | None => Exc (ValueError (invalid_literal
                                   (repr_cps true (map byte_of (list_ascii_of_string s)))))
      end
  | _ => Exc (TypeError ("int() argument must be a string, a bytes-like object or a real number, not '" ++ type_name v ++ "'"))
  end.

(** The items of [for item in v]. *)
Definition py_iter (v : pyval) : except (list pyval) :=
  match v with
  | PList l => Ok l
  | PDict d => Ok (map (fun kv => PStr (fst kv)) d)
  | PStr s => Ok (map (fun c => PStr (str_of_cps [c])) (cps s))
  | PBytes s => Ok (map (fun c => PInt (byte_of c)) (list_ascii_of_string s))
  | _ => Exc (TypeError ("'" ++ type_name v ++ "' object is not iterable"))
  end.

(** Truthiness. *)
Definition truthy (v : pyval) : bool :=
  match v with
  | PNone => false
  | PBool b => b
  | PInt z => negb (z =? 0)
  | PStr s | PBytes s => negb (String.eqb s "")
  | PList l => negb (Nat.eqb (List.length l) 0)
  | PDict d => negb (Nat.eqb (List.length d) 0)
  end.

(** [v[0]]. *)
Definition index0 (v : pyval) : except pyval :=
  match v with
  | PList (x :: _) => Ok x
  | PList [] => Exc (IndexError "list index out of range")
  | PStr s =>
      match cps s with
      | c :: _ => Ok (PStr (str_of_cps [c]))
      | [] => Exc (IndexError "string index out of range")
      end
  | PBytes s =>
      match list_ascii_of_string s with
      | c :: _ => Ok (PInt (byte_of c))
      | [] => Exc (IndexError "index out of range")
      end
  | PDict _ => Exc (KeyErrorIdx 0)
  | _ => Exc (TypeError ("'" ++ type_name v ++ "' object is not subscriptable"))
  end.

(** [str(e)]. *)
Definition exn_str (e : exn) : string :=
  match e with
  | KeyError k => repr_str k
  | KeyErrorIdx i => str_of_Z i
  | IndexError m | TypeError m | AttributeError m | ValueError m
  | JSONDecodeError m | RequestException m => m
  end.

End Py.

(** ** [hmac.new(key, msg, hashlib.sha256).digest()] and [base64.b64encode]

    SHA-256 as in FIPS 180-4 over bytes held as [Z] in [0, 256), 32-bit
    words as [Z] with the wrap-around written out. *)

Module Crypto.

Definition word_mask : Z := Z.ones 32.

Definition add32 (x y : Z) : Z := Z.land (x + y) word_mask.

Definition rotr (n x : Z) : Z :=
  Z.lor (Z.shiftr x n) (Z.land (Z.shiftl x (32 - n)) word_mask).

Definition big_sigma0 (x : Z) : Z := Z.lxor (Z.lxor (rotr 2 x) (rotr 13 x)) (rotr 22 x).
Definition big_sigma1 (x : Z) : Z := Z.lxor (Z.lxor (rotr 6 x) (rotr 11 x)) (rotr 25 x).
Definition small_sigma0 (x : Z) : Z := Z.lxor (Z.lxor (rotr 7 x) (rotr 18 x)) (Z.shiftr x 3).
Definition small_sigma1 (x : Z) : Z := Z.lxor (Z.lxor (rotr 17 x) (rotr 19 x)) (Z.shiftr x 10).

Definition choose (x y z : Z) : Z :=
  Z.lxor (Z.land x y) (Z.land (Z.lxor x word_mask) z).
Definition majority (x y z : Z) : Z :=
  Z.lxor (Z.lxor (Z.land x y) (Z.land x z)) (Z.land y z).

(** Round constants and initial hash value, in decimal. *)
Definition round_constants : list Z :=
  [1116352408; 1899447441; 3049323471; 3921009573; 961987163; 1508970993;
   2453635748; 2870763221; 3624381080; 310598401; 607225278; 1426881987;
   1925078388; 2162078206; 2614888103; 3248222580; 3835390401; 4022224774;
   264347078; 604807628; 770255983; 1249150122; 1555081692; 1996064986;
   2554220882; 2821834349; 2952996808; 3210313671; 3336571891; 3584528711;
   113926993; 338241895; 666307205; 773529912; 1294757372; 1396182291;
   1695183700; 1986661051; 2177026350; 2456956037; 2730485921; 2820302411;
   3259730800; 3345764771; 3516065817; 3600352804; 4094571909; 275423344;
   430227734; 506948616; 659060556; 883997877; 958139571; 1322822218;
   1537002063; 1747873779; 1955562222; 2024104815; 2227730452; 2361852424;
   2428436474; 2756734187; 3204031479; 3329325298].

Definition initial_hash : list Z :=
  [1779033703; 3144134277; 1013904242; 2773480762;
   1359893119; 2600822924; 528734635; 1541459225].

(** [n] bytes of [x], most significant first. *)
Fixpoint be_bytes (n : nat) (x : Z) : list Z :=
  match n with
  | O => []
  | S k => be_bytes k (Z.shiftr x 8) ++ [Z.land x 255]
  end.

Fixpoint be_word (bs : list Z) (acc : Z) : Z :=
  match bs with [] => acc | b :: r => be_word r (acc * 256 + b) end.

(** Message padding: [0x80], zeros, then the bit length on 64 bits. *)
Definition pad (msg : list Z) : list Z :=
  let len := List.length msg in
  let zeros := ((64 - (len + 9) mod 64) mod 64)%nat in
  msg ++ [128] ++ repeat 0 zeros ++ be_bytes 8 (Z.of_nat len * 8).

Fixpoint chunks (fuel : nat) (n : nat) (l : list Z) : list (list Z) :=
  match fuel with
  | O => []
  | S f =>
      match l with
      | [] => []
      | _ => firstn n l :: chunks f n (skipn n l)
      end
  end.

(** The 64-word message schedule of one block. *)
Fixpoint extend_schedule (fuel : nat) (ws : list Z) : list Z :=
  match fuel with
  | O => ws
  | S f =>
      let t := List.length ws in
      let w i := nth (t - i) ws 0 in
      extend_schedule f
        (ws ++ [add32 (add32 (small_sigma1 (w 2%nat)) (w 7%nat))
                      (add32 (small_sigma0 (w 15%nat)) (w 16%nat))])
  end.

Definition schedule (block : list Z) : list Z :=
  extend_schedule 48 (map (fun ws => be_word ws 0) (chunks 16 4 block)).

Definition round_step (st : list Z) (kw : Z * Z) : list Z :=
  match st with
  | [a; b; c; d; e; f; g; h] =>
      let t1 := add32 (add32 (add32 h (big_sigma1 e)) (add32 (choose e f g) (fst kw))) (snd kw) in
      let t2 := add32 (big_sigma0 a) (majority a b c) in
      [add32 t1 t2; a; b; c; add32 d t1; e; f; g]
  | _ => st
  end.

Definition compress (hv : list Z) (block : list Z) : list Z :=
  let st := fold_left round_step (combine round_constants (schedule block)) hv in
  map (fun p => add32 (fst p) (snd p)) (combine hv st).

Definition sha256 (msg : list Z) : list Z :=
  let p := pad msg in
  flat_map (be_bytes 4)
    (fold_left compress (chunks (List.length p) 64 p) initial_hash).

(** HMAC with a 64-byte block. *)
Definition hmac_sha256 (key msg : list Z) : list Z :=
  let k0 := if (64 <? List.length key)%nat then sha256 key else key in
  let k := k0 ++ repeat 0 (64 - List.length k0) in
  sha256 (map (Z.lxor 92) k ++ sha256 (map (Z.lxor 54) k ++ msg)).

Definition b64_char (n : Z) : ascii :=
  ascii_of_nat (Z.to_nat
    (if n <? 26 then 65 + n
     else if n <? 52 then 97 + (n - 26)
     else if n <? 62 then 48 + (n - 52)
     else if n =? 62 then 43 else 47)).

Fixpoint b64_groups (fuel : nat) (bs : list Z) : list ascii :=
  match fuel with
  | O => []
  | S f =>
      match bs with
      | a :: b :: c :: r =>
          let n := a * 65536 + b * 256 + c in
          b64_char (Z.shiftr n 18) :: b64_char (Z.land (Z.shiftr n 12) 63)
            :: b64_char (Z.land (Z.shiftr n 6) 63) :: b64_char (Z.land n 63)
            :: b64_groups f r
      | [a; b] =>
          let n := a * 65536 + b * 256 in
          [b64_char (Z.shiftr n 18); b64_char (Z.land (Z.shiftr n 12) 63);
           b64_char (Z.land (Z.shiftr n 6) 63); "="%char]
      | [a] =>
          let n := a * 65536 in
          [b64_char (Z.shiftr n 18); b64_char (Z.land (Z.shiftr n 12) 63);
           "="%char; "="%char]
      | [] => []
      end
  end.

(** [base64.b64encode(bs)]. *)
Definition b64encode (bs : list Z) : string :=
  string_of_list_ascii (b64_groups (List.length bs) bs).

(** [bytes(s, "utf-8")] on the byte-level model of strings. *)
Definition utf8 (s : string) : list Z :=
  map (fun c => Z.of_nat (nat_of_ascii c)) (list_ascii_of_string s).

Definition hex_digit (n : Z) : ascii :=
  ascii_of_nat (Z.to_nat (if n <? 10 then 48 + n else 87 + n)).

(** [digest.hex()], used to state test vectors. *)
Definition hex (bs : list Z) : string :=
  string_of_list_ascii
    (flat_map (fun b => [hex_digit (Z.shiftr b 4); hex_digit (Z.land b 15)]) bs).

End Crypto.

(** ** [get_total_volume] (lines 40-99) *)

Import Py.

Section Fetcher.
Local Open Scope string_scope.

(** The one effect of [get_total_volume] is the call [requests.get]: the
    function either raises before it (the signing block, lines 43-59, is
    outside the [try]) or issues one request and continues with what the
    transport gives back. *)
Record request := mk_request {
  req_url : string;
  req_params : list (string * string);
  req_headers : list (string * pyval) }.

Record response := mk_response {
  status_code : Z;
  resp_text : string;
  resp_json : option pyval  (** [None]: the body is not valid JSON *) }.

Inductive http_result :=
| Response (r : response)
| ConnectionFailure (msg : string)  (** [requests.get] raised *).

(** How a Python call ends: a returned value or an escaping exception. *)
Inductive outcome :=
| Returned (v : pyval)
| Raised (e : exn).

Inductive io :=
| Done (o : outcome)
| Call (rq : request) (k : http_result -> outcome).

Definition run (p : io) (http : request -> http_result) : outcome :=
  match p with Done o => o | Call rq k => k (http rq) end.

Definition failure (msg : string) : pyval :=
  PDict [("success", PBool false); ("msg", PStr msg)].

Definition success (kw total comp : pyval) : pyval :=
  PDict [("success", PBool true);
         ("data", PDict [("keyword", kw); ("total_vol", total); ("comp_idx", comp)])].

(** The [for item in kwd_list] loop (lines 72-75). *)
Fixpoint find_exact (clean_keyword : string) (items : list pyval)
  : except (option pyval) :=
  match items with
  | [] => Ok None
  | item :: rest =>
      rk <- getitem item "relKeyword";;
      k <- replace_spaces rk;;
      if String.eqb k clean_keyword then Ok (Some item)
      else find_exact clean_keyword rest
  end.

(** Lines 71-79: the exact match, or else the first record. *)
Definition select_target (clean_keyword : string) (kwd_list : pyval)
  : except (option pyval) :=
  items <- py_iter kwd_list;;
  found <- find_exact clean_keyword items;;
  match found with
  | Some t => Ok (Some t)
  | None => if truthy kwd_list then (t <- index0 kwd_list;; Ok (Some t)) else Ok None
  end.

(** Lines 86-87: [5 if str(cnt).startswith("<") else int(cnt)]. *)
Definition count_vol (cnt : pyval) : except Z :=
  if str_startswith_lt cnt then Ok 5 else py_int cnt.

(** The body of the [try] after the request (lines 65-97). *)
Definition handle_response (clean_keyword : string) (r : http_result)
  : except pyval :=
  match r with
  | ConnectionFailure m => Exc (RequestException m)
  | Response resp =>
      if negb (Z.eqb (status_code resp) 200) then
        Ok (failure ("Ad API Error " ++ str_of_Z (status_code resp) ++ ": "
                     ++ resp_text resp))
      else
        data <- (match resp_json resp with
                 | Some d => Ok d
                 | None => Exc (JSONDecodeError "Expecting value: line 1 column 1 (char 0)")
                 end);;
        kwd_list <- dict_get data "keywordList" (PList []);;
        target <- select_target clean_keyword kwd_list;;
        match target with
        | Some t =>
            if truthy t then
              pc_cnt <- getitem t "monthlyPcQcCnt";;
              mo_cnt <- getitem t "monthlyMobileQcCnt";;
              pc_vol <- count_vol pc_cnt;;
              mo_vol <- count_vol mo_cnt;;
              kw <- getitem t "relKeyword";;
              comp <- getitem t "compIdx";;
              Ok (success kw (PInt (pc_vol + mo_vol)) comp)
            else Ok (failure "검색 결과가 없습니다. (검색량 부족 또는 오타)")
        | None => Ok (failure "검색 결과가 없습니다. (검색량 부족 또는 오타)")
        end
  end.

(** [except Exception as e: return {"success": False, "msg": str(e)}]. *)
Definition try_except (m : except pyval) : pyval :=
  match m with Ok v => v | Exc e => failure (exn_str e) end.

Definition uri : string := "/keywordstool".
Definition method : string := "GET".

(** Lines 48-51: the request signature. *)
Definition signature (secret_key timestamp : string) : string :=
  let message := (timestamp ++ "." ++ method ++ "." ++ uri)%string in
  Crypto.b64encode (Crypto.hmac_sha256 (Crypto.utf8 secret_key) (Crypto.utf8 message)).

(** Lines 45-59, outside the [try]: the timestamp
    [str(int(time.time() * 1000))] is [str_of_Z now_ms]. *)
Definition signed_headers (keys : pyval) (now_ms : Z)
  : except (list (string * pyval)) :=
  let timestamp := str_of_Z now_ms in
  sk <- getitem keys "AD_SECRET_KEY";;
  secret_key <- strip_to_str sk;;
  let sig := signature secret_key timestamp in
  api_key <- getitem keys "AD_API_KEY";;
  customer <- getitem keys "AD_CUSTOMER_ID";;
  Ok [("Content-Type", PStr "application/json; charset=UTF-8");
      ("X-Timestamp", PStr timestamp);
      ("X-API-KEY", api_key);
      ("X-Customer", customer);
      ("X-Signature", PBytes sig)].

Definition get_total_volume (keyword : string) (keys : pyval) (now_ms : Z) : io :=
  match signed_headers keys now_ms with
  | Exc e => Done (Raised e)
  | Ok headers =>
      let clean_keyword := remove_spaces keyword in
      Call (mk_request ("https://api.searchad.naver.com" ++ uri)
              [("hintKeywords", clean_keyword); ("showDetail", "1")] headers)
           (fun r => Returned (try_except (handle_response clean_keyword r)))
  end.

End Fetcher.

(** ** Predicates and inputs used to state the properties *)

Section Statements.
Local Open Scope string_scope.

(** The credential bundle reaches the [try]: a string secret key, and an
    API key and a customer id of any type. *)
Definition keys_ok (keys : pyval) : bool :=
  match getitem keys "AD_SECRET_KEY" with Ok (PStr _) => true | _ => false end
  && is_ok (getitem keys "AD_API_KEY") && is_ok (getitem keys "AD_CUSTOMER_ID").

(** The value a [get_total_volume] call returns is one of the two dicts of
    the source: a failure with a message or a success with its data. *)
Definition well_shaped (v : pyval) : Prop :=
  (exists m, v = failure m) \/ (exists kw tv comp, v = success kw (PInt tv) comp).

(** The [relKeyword] of a candidate record, when it is a string. *)
Definition relkw_str (item : pyval) : option string :=
  match item with
  | PDict d => match assoc "relKeyword" d with Some (PStr s) => Some s | _ => None end
  | _ => None
  end.

Definition matches_with (norm : string -> string) (keyword : string) (item : pyval) : bool :=
  match relkw_str item with
  | Some s => String.eqb (norm s) (norm keyword)
  | None => false
  end.

(** A candidate record with a string [relKeyword]. *)
Definition has_str_relkw (item : pyval) : bool :=
  match relkw_str item with Some _ => true | None => false end.

(** The matching policy in the words of the spec, for a normalisation
    [norm] of keywords: the first exact match, else the first record. *)
Definition policy_select (norm : string -> string) (keyword : string) (items : list pyval)
  : option pyval :=
  match find (matches_with norm keyword) items with
  | Some t => Some t
  | None => head items
  end.

(** Whitespace stripped in the sense of [str.isspace]: every whitespace
    character removed. *)
Definition remove_whitespace (s : string) : string :=
  str_of_cps (filter (fun c => negb (is_space_cp c)) (cps s)).

(** The signer in the words of the spec. *)
Definition spec_signature (secret http_method path timestamp : string) : string :=
  Crypto.b64encode
    (Crypto.hmac_sha256 (Crypto.utf8 secret)
       (Crypto.utf8 (timestamp ++ "." ++ http_method ++ "." ++ path))).

Definition candidate (kw : string) (pc mo comp : pyval) : pyval :=
  PDict [("relKeyword", PStr kw); ("monthlyPcQcCnt", pc);
         ("monthlyMobileQcCnt", mo); ("compIdx", comp)].

Definition probe_keys (secret : pyval) : pyval :=
  PDict [("AD_API_KEY", PStr "0100000000"); ("AD_SECRET_KEY", secret);
         ("AD_CUSTOMER_ID", PStr "123456"); ("DATALAB_ID", PStr "id");
         ("DATALAB_SECRET", PStr "secret"); ("success", PBool true)].

Definition probe_response (items : list pyval) : http_result :=
  Response (mk_response 200 "" (Some (PDict [("keywordList", PList items)]))).

Definition tab_keyword : string := "tent" ++ String (ascii_of_nat 9) "chair".

End Statements.

(** ** [str()] of a Python value *)

Section PyStr.
Local Open Scope string_scope.

Fixpoint py_repr (v : pyval) : string :=
  match v with
  | PNone => "None"
  | PBool b => if b then "True" else "False"
  | PInt z => str_of_Z z
  | PStr s => repr_str s
  | PBytes s => repr_bytes s
  | PList l =>
      "[" ++ (fix go (l : list pyval) : string :=
                match l with
                | [] => ""
                | [x] => py_repr x
                | x :: r => py_repr x ++ ", " ++ go r
                end) l ++ "]"
  | PDict d =>
      "{" ++ (fix go (d : list (string * pyval)) : string :=
                match d with
                | [] => ""
                | [(k, x)] => repr_str k ++ ": " ++ py_repr x
                | (k, x) :: r => repr_str k ++ ": " ++ py_repr x ++ ", " ++ go r
                end) d ++ "}"
  end.

(** [str(v)]: the text of a [str], the [repr] of anything else. *)
Definition py_str (v : pyval) : string :=
  match v with PStr s => s | _ => py_repr v end.

End PyStr.

(** ** [load_api_keys] (lines 19-35) *)

Section LoadKeys.
Local Open Scope string_scope.

(** [st.secrets] is [None] when no secrets file exists: reading it then
    raises, which the [except Exception] turns into the failure dict, as
    any [KeyError] or [TypeError] of the subscripts. *)
Definition load_api_keys (secrets : option pyval) : pyval :=
  let fail := PDict [("success", PBool false)] in
  match secrets with
  | None => fail
  | Some root =>
      match (s <- getitem root "naver_api";;
             api <- getitem s "AD_API_KEY";;
             sk <- getitem s "AD_SECRET_KEY";;
             cust <- getitem s "AD_CUSTOMER_ID";;
             dl_id <- getitem s "DATALAB_CLIENT_ID";;
             dl_secret <- getitem s "DATALAB_CLIENT_SECRET";;
             Ok (PDict [("AD_API_KEY", api); ("AD_SECRET_KEY", sk);
                        ("AD_CUSTOMER_ID", PStr (py_str cust));
                        ("DATALAB_ID", dl_id); ("DATALAB_SECRET", dl_secret);
                        ("success", PBool true)]))
      with
      | Ok v => v
      | Exc _ => fail
      end
  end.

End LoadKeys.

(** ** [get_trend_data] (lines 101-123) *)

(** The decoded JSON of the DataLab response; its numbers (Python [int]
    or [float]) are modelled as [Q]. [JNull] is Python's [None], which is
    also what [get_trend_data] returns on failure. *)
Inductive jval :=
| JNull
| JBool (b : bool)
| JNum (q : Q)
| JStr (s : string)
| JArr (l : list jval)
| JObj (d : list (string * jval)).

Record post_request := mk_post {
  post_url : string;
  post_headers : list (string * pyval);
  post_body : jval  (** sent as [json=body] *) }.

Record trend_response := mk_trend_response {
  trend_status : Z;
  trend_json : option jval  (** [None]: the body is not valid JSON *) }.

Inductive trend_result :=
| TrendResponse (r : trend_response)
| TrendFailure (msg : string)  (** [requests.post] raised *).

Inductive trend_outcome :=
| TReturned (v : jval)
| TRaised (e : exn).

Inductive trend_io :=
| TDone (o : trend_outcome)
| TCall (rq : post_request) (k : trend_result -> trend_outcome).

Definition run_trend (p : trend_io) (http : post_request -> trend_result) : trend_outcome :=
  match p with TDone o => o | TCall rq k => k (http rq) end.

Section Trend.
Local Open Scope string_scope.

(** The [try] of lines 117-123: the JSON on status 200, [None] otherwise;
    the bare [except] also turns a transport error or a body that is not
    JSON into [None]. *)
Definition trend_handle (r : trend_result) : jval :=
  match r with
  | TrendFailure _ => JNull
  | TrendResponse resp =>
      if Z.eqb (trend_status resp) 200 then
        match trend_json resp with Some j => j | None => JNull end
      else JNull
  end.

(** The headers are read from [keys] before the [try]. *)
Definition get_trend_data (keyword start_date end_date : string) (keys : pyval) : trend_io :=
  match (cid <- getitem keys "DATALAB_ID";;
         csecret <- getitem keys "DATALAB_SECRET";;
         Ok [("X-Naver-Client-Id", cid); ("X-Naver-Client-Secret", csecret);
             ("Content-Type", PStr "application/json")]) with
  | Exc e => TDone (TRaised e)
  | Ok headers =>
      let body :=
        JObj [("startDate", JStr start_date); ("endDate", JStr end_date);
              ("timeUnit", JStr "month");
              ("keywordGroups",
                 JArr [JObj [("groupName", JStr keyword);
                             ("keywords", JArr [JStr keyword])]])] in
      TCall (mk_post "https://openapi.naver.com/v1/datalab/search" headers body)
            (fun r => TReturned (trend_handle r))
  end.

End Trend.

(** ** More predicates and inputs used to state properties *)

Section Statements2.
Local Open Scope string_scope.

(** The five fields [load_api_keys] reads from the [naver_api] section. *)
Definition secret_fields : list string :=
  ["AD_API_KEY"; "AD_SECRET_KEY"; "AD_CUSTOMER_ID";
   "DATALAB_CLIENT_ID"; "DATALAB_CLIENT_SECRET"].

Definition keys_section_ok (secrets : option pyval) : bool :=
  match secrets with
  | Some root =>
      match getitem root "naver_api" with
      | Ok s => forallb (fun k => is_ok (getitem s k)) secret_fields
      | Exc _ => false
      end
  | None => false
  end.

Definition probe_secrets (customer secret : pyval) : option pyval :=
  Some (PDict [("naver_api",
    PDict [("AD_API_KEY", PStr "0100000000"); ("AD_SECRET_KEY", secret);
           ("AD_CUSTOMER_ID", customer); ("DATALAB_CLIENT_ID", PStr "id");
           ("DATALAB_CLIENT_SECRET", PStr "csecret")])]).

Definition no_result_msg : string := "검색 결과가 없습니다. (검색량 부족 또는 오타)".

End Statements2.

(** The ASCII digits [0]-[9], the only characters [str_of_Z] writes. *)
Definition isdig (c : ascii) : bool :=
  ((48 <=? nat_of_ascii c) && (nat_of_ascii c <=? 57))%nat.

(** One step of [parse_digits] on a digit. *)
Definition dstep (a : Z) (c : ascii) : Z := a * 10 + Z.of_nat (nat_of_ascii c - 48).

(** Fourteen monthly ratios, all [1] but the second, which is [0]. *)
Definition yoy_probe_points : list point :=
  mk_point "2024-01" 1 :: mk_point "2024-02" 0
  :: map (fun s => mk_point s 1)
       ["2024-03"; "2024-04"; "2024-05"; "2024-06"; "2024-07"; "2024-08";
        "2024-09"; "2024-10"; "2024-11"; "2024-12"; "2025-01"; "2025-02"]%string.

(* ================================================================== *)
(** * Properties *)
(* ================================================================== *)

(** ** Rounding *)

Section Rounding.
Local Open Scope Q_scope.

Lemma round_half_even_comp (q q' : Q) :
  q == q' -> round_half_even q = round_half_even q'.
Proof.
  intros H. unfold round_half_even.
  rewrite (Qfloor_comp q q' H). rewrite H. reflexivity.
Qed.



(** The rounded value is a nearest integer: within one half of [q]. *)
Lemma round_half_even_near (q : Q) :
  - (1 # 2) <= inject_Z (round_half_even q) - q <= 1 # 2.
Proof.
  pose proof (Qfloor_le q) as Hlo. pose proof (Qlt_floor q) as Hhi.
  rewrite inject_Z_plus in Hhi.
  unfold round_half_even.
  destruct (Qcompare (q - inject_Z (Qfloor q)) (1 # 2)) eqn:Hc;
    [apply Qeq_alt in Hc; destruct (Z.even _)
    | apply Qlt_alt in Hc | apply Qgt_alt in Hc];
    rewrite ?inject_Z_plus in *; change (inject_Z 1) with 1 in *;
    set (F := inject_Z (Qfloor q)) in *; split; lra.
Qed.

Lemma Qfloor_unique (q : Q) (f : Z) :
  inject_Z f <= q -> q < inject_Z f + 1 -> Qfloor q = f.
Proof.
  intros Hlo Hhi.
  pose proof (Qfloor_le q) as H1. pose proof (Qlt_floor q) as H2.
  rewrite inject_Z_plus in H2.
  assert (A : (Qfloor q < f + 1)%Z).
  { rewrite Zlt_Qlt, inject_Z_plus. change (inject_Z 1) with 1 in *. lra. }
  assert (B : (f < Qfloor q + 1)%Z).
  { rewrite Zlt_Qlt, inject_Z_plus. change (inject_Z 1) with 1 in *. lra. }
  lia.
Qed.

Lemma round_half_even_inject_Z (z : Z) : round_half_even (inject_Z z) = z.
Proof.
  unfold round_half_even.
  rewrite (Qfloor_unique (inject_Z z) z) by lra.
  assert (H : inject_Z z - inject_Z z == 0) by ring.
  rewrite H. reflexivity.
Qed.

(** Exact ties go to the even neighbour. *)
Lemma round_half_even_tie (n : Z) :
  round_half_even (inject_Z n + (1 # 2)) = (if Z.even n then n else n + 1)%Z.
Proof.
  unfold round_half_even.
  rewrite (Qfloor_unique (inject_Z n + (1 # 2)) n) by lra.
  assert (H : inject_Z n + (1 # 2) - inject_Z n == 1 # 2) by ring.
  rewrite H. reflexivity.
Qed.

End Rounding.

Example sha256_abc :
  Crypto.hex (Crypto.sha256 (Crypto.utf8 "abc"))
  = "ba7816bf8f01cfea414140de5dae2223b00361a396177a9cb410ff61f20015ad"%string.
Proof. vm_compute. reflexivity. Qed.

(** RFC 4231, test case 2. *)
Example hmac_sha256_rfc4231_2 :
  Crypto.hex (Crypto.hmac_sha256 (Crypto.utf8 "Jefe")
                (Crypto.utf8 "what do ya want for nothing?"))
  = "5bdcc146bf60754e6a042426089575c75a003f089d2739839dec58b964ec3843"%string.
Proof. vm_compute. reflexivity. Qed.

Example b64encode_rfc4648 :
  map (fun s => Crypto.b64encode (Crypto.utf8 s))
    ["f"; "fo"; "foo"; "foob"; "fooba"; "foobar"]%string
  = ["Zg=="; "Zm8="; "Zm9v"; "Zm9vYg=="; "Zm9vYmE="; "Zm9vYmFy"]%string.
Proof. vm_compute. reflexivity. Qed.

Example scenario_tent_chair :
  search_volume 10000 [mk_point "2024-01" 50; mk_point "2024-02" 100] = [5000; 10000]
  /\ mom_growth (growth_metrics [5000; 10000]) == 100.
Proof. split; [reflexivity | vm_compute; reflexivity]. Qed.

(** ** The rescaling block *)

Section Rescaling.
Local Open Scope Q_scope.

Lemma last_map_nonempty {A B} (f : A -> B) (l : list A) (d : A) (e : B) :
  l <> [] -> last (map f l) e = f (last l d).
Proof.
  intros Hne. rewrite (app_removelast_last d Hne) at 1.
  rewrite map_app. simpl. apply last_last.
Qed.

Lemma Qltb_true (a b : Q) : Qltb a b = true <-> a < b.
Proof.
  unfold Qltb. rewrite Qlt_alt.
  destruct (a ?= b); split; congruence.
Qed.

Lemma multiplier_nonneg (B : Z) (pts : list point) :
  (0 <= B)%Z -> 0 <= multiplier B pts.
Proof.
  intros HB. unfold multiplier.
  destruct (Qltb 0 (last_ratio pts)) eqn:Hl; [|apply Qle_refl].
  apply Qltb_true in Hl. apply Qle_shift_div_l; [exact Hl|].
  rewrite Zle_Qle in HB. change (inject_Z 0) with 0 in HB. lra.
Qed.


Lemma In_combine_map {A B} (f : A -> B) (l : list A) (x : A) (y : B) :
  In (x, y) (combine l (map f l)) -> y = f x.
Proof.
  induction l as [|a l IH]; simpl; [tauto|].
  intros [H | H]; [inversion H; reflexivity | auto].
Qed.

(** C1: anchoring.  When the last ratio is positive the last derived
    volume is the (rounded) baseline [current_total_vol]. *)
Theorem search_volume_anchored_at_last (B : Z) (pts : list point) :
  pts <> [] -> (0 <= B)%Z -> 0 < last_ratio pts ->
  last (search_volume B pts) 0%Z = round_half_even (inject_Z B).
Proof.
  intros Hne _ Hpos. unfold search_volume.
  rewrite (last_map_nonempty _ pts no_point _ Hne).
  apply round_half_even_comp. unfold multiplier.
  apply Qltb_true in Hpos as Hb. rewrite Hb.
  fold (last_ratio pts).
  field. intros H. rewrite H in Hpos. apply (Qlt_irrefl 0). exact Hpos.
Qed.

Lemma search_volume_anchored_at_last_witness :
  [mk_point "2024-01" 50; mk_point "2024-02" 100] <> [] /\ (0 <= 10000)%Z
  /\ 0 < last_ratio [mk_point "2024-01" 50; mk_point "2024-02" 100]
  /\ last (search_volume 10000 [mk_point "2024-01" 50; mk_point "2024-02" 100]) 0%Z
     = round_half_even (inject_Z 10000).
Proof.
  split; [discriminate|]. split; [lia|]. split; [vm_compute; reflexivity|].
  apply search_volume_anchored_at_last;
    [discriminate | lia | vm_compute; reflexivity].
Defined.

(** C3: zero multiplier.  A zero last ratio gives the multiplier [0] and an
    all-zero series, whatever the baseline. *)
Theorem search_volume_zero_last_ratio (B : Z) (pts : list point) :
  pts <> [] -> last_ratio pts == 0 ->
  multiplier B pts = 0 /\ Forall (fun v => v = 0%Z) (search_volume B pts).
Proof.
  intros _ H0.
  assert (Hm : multiplier B pts = 0).
  { unfold multiplier.
    destruct (Qltb 0 (last_ratio pts)) eqn:E; [|reflexivity].
    apply Qltb_true in E. rewrite H0 in E. destruct (Qlt_irrefl 0 E). }
  split; [exact Hm|].
  unfold search_volume. rewrite Hm. apply Forall_map, Forall_forall.
  intros p _. rewrite (round_half_even_comp _ 0) by ring. reflexivity.
Qed.

Lemma search_volume_zero_last_ratio_witness :
  [mk_point "2024-01" 0] <> [] /\ last_ratio [mk_point "2024-01" 0] == 0
  /\ multiplier 10000 [mk_point "2024-01" 0] = 0
  /\ Forall (fun v => v = 0%Z) (search_volume 10000 [mk_point "2024-01" 0]).
Proof.
  split; [discriminate|]. split; [reflexivity|].
  apply search_volume_zero_last_ratio; [discriminate | reflexivity].
Defined.



(** C9: a product [ratio * multiplier], computed as a double, that is
    exactly halfway between [n] and [n + 1] is stored as the even one of
    the two. *)
Theorem search_volume_ties_to_even (B n : Z) (pts : list point) (p : point) (v : Z) :
  In (p, v) (combine pts (search_volume_f B pts)) ->
  fl (ratio p * multiplier_f B pts) == inject_Z n + (1 # 2) ->
  v = (if Z.even n then n else n + 1)%Z.
Proof.
  intros Hin Hhalf. unfold search_volume_f in Hin.
  apply In_combine_map in Hin. subst v.
  rewrite (round_half_even_comp _ _ Hhalf). apply round_half_even_tie.
Qed.

(** With the baseline [5] and the ratios [1.0, 2.0] the multiplier is
    [2.5]; the product [2.5] of the first row is stored as [2]. *)
Lemma search_volume_ties_to_even_witness :
  In (mk_point "2024-01" 1, 2%Z)
     (combine [mk_point "2024-01" 1; mk_point "2024-02" 2]
        (search_volume_f 5 [mk_point "2024-01" 1; mk_point "2024-02" 2]))
  /\ fl (ratio (mk_point "2024-01" 1)
          * multiplier_f 5 [mk_point "2024-01" 1; mk_point "2024-02" 2])
     == inject_Z 2 + (1 # 2)
  /\ 2%Z = (if Z.even 2 then 2 else 2 + 1)%Z.
Proof.
  assert (Hin : In (mk_point "2024-01" 1, 2%Z)
     (combine [mk_point "2024-01" 1; mk_point "2024-02" 2]
        (search_volume_f 5 [mk_point "2024-01" 1; mk_point "2024-02" 2])))
    by (vm_compute; left; reflexivity).
  assert (Hh : fl (ratio (mk_point "2024-01" 1)
          * multiplier_f 5 [mk_point "2024-01" 1; mk_point "2024-02" 2])
     == inject_Z 2 + (1 # 2)) by (vm_compute; reflexivity).
  split; [exact Hin|]. split; [exact Hh|].
  exact (search_volume_ties_to_even 5 2 _ _ _ Hin Hh).
Defined.

(** In binary64 the product need not be the exact tie: with the baseline
    [3] and the ratios [47, 94] the double [47 * (3 / 94)] is
    [1.4999999999999998], and the first row is stored as [1]. *)
Lemma search_volume_f_inexact_tie :
  search_volume_f 3 [mk_point "2024-01" 47; mk_point "2024-02" 94] = [1%Z; 3%Z]
  /\ fl (ratio (mk_point "2024-01" 47)
          * multiplier_f 3 [mk_point "2024-01" 47; mk_point "2024-02" 94]) < 3 # 2.
Proof. split; vm_compute; reflexivity. Qed.

End Rescaling.

(** ** Growth rates *)

Section Growth.

Ltac growth_cases :=
  unfold growth_metrics, iloc_neg; cbv zeta;
  repeat (match goal with
          | |- context [if ?c then _ else _] => destruct c
          end; simpl); auto.

(** C4: month-over-month growth is [(curr - prev) / prev * 100] exactly
    when there are at least two points and the second-to-last volume is
    positive; otherwise it keeps its initial value [0]. *)
Theorem mom_growth_spec (v : list Z) :
  mom_growth (growth_metrics v) =
    if (2 <=? List.length v)%nat && (0 <? nth (List.length v - 2) v 0)
    then pct (nth (List.length v - 1) v 0) (nth (List.length v - 2) v 0)
    else 0%Q.
Proof. growth_cases. Qed.

(** C2 (as the code has it): the availability flag is set exactly when
    there are at least 13 points and the 13th volume from the end
    ([iloc[-13]], twelve positions before the last) is positive; the YoY
    value is then [(curr - prev_yr) / prev_yr * 100] with that point, and
    stays [0] otherwise. *)
Theorem yoy_growth_spec (v : list Z) :
  has_yoy (growth_metrics v) =
    ((13 <=? List.length v)%nat && (0 <? nth (List.length v - 13) v 0))
  /\ yoy_growth (growth_metrics v) =
    if (13 <=? List.length v)%nat && (0 <? nth (List.length v - 13) v 0)
    then pct (nth (List.length v - 1) v 0) (nth (List.length v - 13) v 0)
    else 0%Q.
Proof. growth_cases. Qed.

(** C2 as worded fails: the point thirteen positions before the last
    ([iloc[-14]], volume 100) is positive in a series of 14 points, yet the
    flag is false, because the code reads [iloc[-13]] (volume 0). *)
Lemma yoy_flag_point_13_before_last_counterexample :
  let v := search_volume 100 yoy_probe_points in
  has_yoy (growth_metrics v) = false
  /\ (13 <= List.length v)%nat
  /\ 0 < nth (List.length v - 1 - 13) v 0.
Proof.
  cbv zeta. split; [vm_compute; reflexivity|].
  split; [vm_compute; lia | vm_compute; reflexivity].
Qed.

End Growth.

(** ** [get_total_volume] *)

Section Fetcher_properties.
Local Open Scope string_scope.

Ltac bind_inv H :=
  repeat match type of H with
  | bind ?m _ = _ =>
      let E := fresh "E" in
      destruct m eqn:E; simpl in H; [|discriminate H]
  end.

Lemma signed_headers_ok (keys : pyval) (now_ms : Z) :
  keys_ok keys = true ->
  exists sk api cust,
    getitem keys "AD_SECRET_KEY" = Ok (PStr sk)
    /\ signed_headers keys now_ms =
       Ok [("Content-Type", PStr "application/json; charset=UTF-8");
           ("X-Timestamp", PStr (str_of_Z now_ms));
           ("X-API-KEY", api);
           ("X-Customer", cust);
           ("X-Signature", PBytes (signature (strip sk) (str_of_Z now_ms)))].
Proof.
  unfold keys_ok, signed_headers.
  destruct (getitem keys "AD_SECRET_KEY") as [[]|] eqn:Es; try discriminate.
  destruct (getitem keys "AD_API_KEY") as [api|] eqn:Ea; try discriminate.
  destruct (getitem keys "AD_CUSTOMER_ID") as [cust|] eqn:Ec; try discriminate.
  intros _. exists s, api, cust. split; reflexivity.
Qed.

Lemma get_total_volume_call (keyword : string) (keys : pyval) (now_ms : Z) :
  keys_ok keys = true ->
  exists sk api cust,
    getitem keys "AD_SECRET_KEY" = Ok (PStr sk)
    /\ get_total_volume keyword keys now_ms =
       Call (mk_request "https://api.searchad.naver.com/keywordstool"
               [("hintKeywords", remove_spaces keyword); ("showDetail", "1")]
               [("Content-Type", PStr "application/json; charset=UTF-8");
                ("X-Timestamp", PStr (str_of_Z now_ms));
                ("X-API-KEY", api);
                ("X-Customer", cust);
                ("X-Signature", PBytes (signature (strip sk) (str_of_Z now_ms)))])
         (fun r => Returned (try_except (handle_response (remove_spaces keyword) r))).
Proof.
  intros Hk. destruct (signed_headers_ok keys now_ms Hk) as (sk & api & cust & Hs & Hh).
  exists sk, api, cust. split; [exact Hs|].
  unfold get_total_volume. rewrite Hh. reflexivity.
Qed.

Lemma handle_response_shaped (clean : string) (r : http_result) (v : pyval) :
  handle_response clean r = Ok v -> well_shaped v.
Proof.
  unfold handle_response. intros H.
  destruct r as [resp|m]; [|discriminate H].
  destruct (negb _).
  - injection H as <-. left. eexists. reflexivity.
  - bind_inv H.
    destruct a1 as [t|].
    + destruct (truthy t).
      * bind_inv H. injection H as <-. right. do 3 eexists. reflexivity.
      * injection H as <-. left. eexists. reflexivity.
    + injection H as <-. left. eexists. reflexivity.
Qed.

Lemma try_except_shaped (clean : string) (r : http_result) :
  well_shaped (try_except (handle_response clean r)).
Proof.
  destruct (handle_response clean r) as [v|e] eqn:E; simpl.
  - exact (handle_response_shaped clean r v E).
  - left. eexists. reflexivity.
Qed.

(** C10 (as the code has it): once the credential bundle has a string
    [AD_SECRET_KEY] and the two other header fields, [get_total_volume]
    returns, for every keyword, time and transport behaviour, either
    [{"success": False, "msg": ...}] or
    [{"success": True, "data": {keyword, total_vol, comp_idx}}]. *)
Theorem get_total_volume_total (keyword : string) (keys : pyval) (now_ms : Z)
    (http : request -> http_result) :
  keys_ok keys = true ->
  exists v, run (get_total_volume keyword keys now_ms) http = Returned v
            /\ well_shaped v.
Proof.
  intros Hk.
  destruct (get_total_volume_call keyword keys now_ms Hk) as (sk & api & cust & _ & ->).
  simpl. eexists. split; [reflexivity|]. apply try_except_shaped.
Qed.

Lemma get_total_volume_total_witness :
  keys_ok (probe_keys (PStr "secret")) = true
  /\ exists v, run (get_total_volume "tent chair" (probe_keys (PStr "secret")) 1700000000000)
                 (fun _ => ConnectionFailure "Max retries exceeded") = Returned v
               /\ well_shaped v.
Proof.
  split; [reflexivity|].
  apply get_total_volume_total. reflexivity.
Defined.

(** C10 as worded fails: a secret key read from [secrets.toml] as an
    integer passes [load_api_keys] but makes [.strip()] raise before the
    [try]. *)
Lemma get_total_volume_raises_counterexample :
  run (get_total_volume "캠핑의자" (probe_keys (PInt 12345)) 1700000000000)
      (fun _ => probe_response [])
  = Raised (AttributeError "'int' object has no attribute 'strip'").
Proof. vm_compute. reflexivity. Qed.

Lemma find_exact_spec (keyword : string) (items : list pyval) :
  forallb has_str_relkw items = true ->
  find_exact (remove_spaces keyword) items
  = Ok (find (matches_with remove_spaces keyword) items).
Proof.
  induction items as [|item rest IH]; simpl; [reflexivity|].
  intros H. apply andb_prop in H as [Hi Hr].
  unfold has_str_relkw, matches_with, relkw_str in *.
  destruct item as [| | | | |l|d]; try discriminate Hi.
  simpl. destruct (assoc "relKeyword" d) as [[]|]; try discriminate Hi.
  simpl. destruct (String.eqb (remove_spaces s) (remove_spaces keyword)).
  - reflexivity.
  - apply IH. exact Hr.
Qed.

(** C7 (as the code has it): the request carries the keyword with its
    space characters removed, and the record chosen among well-formed
    candidates is the first whose [relKeyword] with spaces removed equals
    it, else the first candidate. *)
Theorem get_total_volume_matching_policy (keyword : string) (keys : pyval)
    (now_ms : Z) (items : list pyval) :
  keys_ok keys = true ->
  forallb has_str_relkw items = true ->
  items <> [] ->
  (exists rq, get_total_volume keyword keys now_ms
              = Call rq (fun r => Returned (try_except (handle_response (remove_spaces keyword) r)))
            /\ req_params rq = [("hintKeywords", remove_spaces keyword); ("showDetail", "1")])
  /\ select_target (remove_spaces keyword) (PList items)
     = Ok (policy_select remove_spaces keyword items).
Proof.
  intros Hk Hw Hne. split.
  - destruct (get_total_volume_call keyword keys now_ms Hk) as (sk & api & cust & _ & ->).
    eexists. split; reflexivity.
  - unfold select_target, policy_select. simpl.
    rewrite (find_exact_spec keyword items Hw). simpl.
    destruct (find _ items) as [t|]; [reflexivity|].
    destruct items as [|x rest]; [contradiction Hne; reflexivity|reflexivity].
Qed.

Lemma get_total_volume_matching_policy_witness :
  keys_ok (probe_keys (PStr "secret")) = true
  /\ forallb has_str_relkw
       [candidate "tent" (PInt 100) (PInt 200) (PStr "high");
        candidate "tent chair" (PStr "< 10") (PInt 30) (PStr "low")] = true
  /\ [candidate "tent" (PInt 100) (PInt 200) (PStr "high");
      candidate "tent chair" (PStr "< 10") (PInt 30) (PStr "low")] <> []
  /\ (exists rq, get_total_volume "tent chair" (probe_keys (PStr "secret")) 1700000000000
              = Call rq (fun r => Returned (try_except (handle_response (remove_spaces "tent chair") r)))
            /\ req_params rq = [("hintKeywords", remove_spaces "tent chair"); ("showDetail", "1")])
  /\ select_target (remove_spaces "tent chair")
       (PList [candidate "tent" (PInt 100) (PInt 200) (PStr "high");
               candidate "tent chair" (PStr "< 10") (PInt 30) (PStr "low")])
     = Ok (policy_select remove_spaces "tent chair"
             [candidate "tent" (PInt 100) (PInt 200) (PStr "high");
              candidate "tent chair" (PStr "< 10") (PInt 30) (PStr "low")]).
Proof.
  split; [reflexivity|]. split; [reflexivity|]. split; [discriminate|].
  apply get_total_volume_matching_policy; [reflexivity | reflexivity | discriminate].
Defined.

(** C7 as worded fails: with a tab inside the keyword, removing spaces
    leaves the tab, so the record ["tentchair"] (a match once all
    whitespace is stripped) is passed over for the first record. *)
Lemma matching_whitespace_counterexample :
  select_target (remove_spaces tab_keyword)
    (PList [candidate "x" (PInt 1) (PInt 1) (PStr "low");
            candidate "tentchair" (PInt 500) (PInt 700) (PStr "high")])
  = Ok (Some (candidate "x" (PInt 1) (PInt 1) (PStr "low")))
  /\ policy_select remove_whitespace tab_keyword
       [candidate "x" (PInt 1) (PInt 1) (PStr "low");
        candidate "tentchair" (PInt 500) (PInt 700) (PStr "high")]
     = Some (candidate "tentchair" (PInt 500) (PInt 700) (PStr "high"))
  /\ remove_spaces tab_keyword <> remove_whitespace tab_keyword.
Proof.
  split; [vm_compute; reflexivity|]. split; [vm_compute; reflexivity|].
  vm_compute. discriminate.
Qed.

(** C8 (as the code has it): the [X-Signature] header is the base64 of
    the HMAC-SHA256, keyed by the secret key after [str.strip()], of
    ["timestamp.GET./keywordstool"], and [X-Timestamp] carries the same
    timestamp. *)
Theorem get_total_volume_signature (keyword : string) (keys : pyval) (now_ms : Z)
    (sk : string) :
  keys_ok keys = true ->
  getitem keys "AD_SECRET_KEY" = Ok (PStr sk) ->
  exists rq k,
    get_total_volume keyword keys now_ms = Call rq k
    /\ assoc "X-Signature" (req_headers rq)
       = Some (PBytes (spec_signature (strip sk) "GET" "/keywordstool" (str_of_Z now_ms)))
    /\ assoc "X-Timestamp" (req_headers rq) = Some (PStr (str_of_Z now_ms)).
Proof.
  intros Hk Hs.
  destruct (get_total_volume_call keyword keys now_ms Hk) as (sk' & api & cust & Hs' & ->).
  rewrite Hs in Hs'. injection Hs' as <-.
  do 2 eexists. split; [reflexivity|]. split; reflexivity.
Qed.

Lemma get_total_volume_signature_witness :
  keys_ok (probe_keys (PStr " Jefe ")) = true
  /\ getitem (probe_keys (PStr " Jefe ")) "AD_SECRET_KEY" = Ok (PStr " Jefe ")
  /\ exists rq k,
    get_total_volume "tent chair" (probe_keys (PStr " Jefe ")) 1700000000000 = Call rq k
    /\ assoc "X-Signature" (req_headers rq)
       = Some (PBytes (spec_signature (strip " Jefe ") "GET" "/keywordstool"
                         (str_of_Z 1700000000000)))
    /\ assoc "X-Timestamp" (req_headers rq) = Some (PStr (str_of_Z 1700000000000)).
Proof.
  split; [reflexivity|]. split; [reflexivity|].
  apply get_total_volume_signature; reflexivity.
Defined.

(** The header above, evaluated: it agrees with Python's
    [base64.b64encode(hmac.new(b"Jefe", b"1700000000000.GET./keywordstool",
    hashlib.sha256).digest())]. *)
Example signature_probe_value :
  spec_signature (strip " Jefe ") "GET" "/keywordstool" (str_of_Z 1700000000000)
  = "o6MeWNTU33ZVsrpLoFukrp39FAXSw2aLxB7K+GGSbS0=".
Proof. vm_compute. reflexivity. Qed.

(** C8 as worded fails: with a secret key that has surrounding blanks the
    header is not the HMAC keyed by that secret. *)
Lemma signature_unstripped_secret_counterexample :
  match get_total_volume "tent chair" (probe_keys (PStr " Jefe ")) 1700000000000 with
  | Call rq _ =>
      assoc "X-Signature" (req_headers rq)
      <> Some (PBytes (spec_signature " Jefe " "GET" "/keywordstool" "1700000000000"))
  | Done _ => False
  end.
Proof. vm_compute. discriminate. Qed.

(** C6: a count whose [str] starts with ["<"] (the API's ["< 10"]) counts
    as [5], and [total_vol] is the sum of the two mapped counts. *)
Theorem get_total_volume_censored_counts (keyword : string) (keys : pyval)
    (now_ms : Z) (resp : response) (data kwd_list t pc mo kw comp : pyval) (a b : Z) :
  keys_ok keys = true ->
  status_code resp = 200 ->
  resp_json resp = Some data ->
  dict_get data "keywordList" (PList []) = Ok kwd_list ->
  select_target (remove_spaces keyword) kwd_list = Ok (Some t) ->
  truthy t = true ->
  getitem t "monthlyPcQcCnt" = Ok pc ->
  getitem t "monthlyMobileQcCnt" = Ok mo ->
  getitem t "relKeyword" = Ok kw ->
  getitem t "compIdx" = Ok comp ->
  count_vol pc = Ok a ->
  count_vol mo = Ok b ->
  run (get_total_volume keyword keys now_ms) (fun _ => Response resp)
  = Returned (success kw (PInt (a + b)) comp)
  /\ (str_startswith_lt pc = true -> a = 5)
  /\ (str_startswith_lt mo = true -> b = 5).
Proof.
  intros Hk Hst Hj Hl Hsel Ht Hpc Hmo Hkw Hci Ha Hb.
  split; [|split].
  - destruct (get_total_volume_call keyword keys now_ms Hk) as (sk & api & cust & _ & ->).
    simpl. unfold handle_response. rewrite Hst, Hj. simpl.
    rewrite Hl. simpl. rewrite Hsel. simpl. rewrite Ht, Hpc. simpl.
    rewrite Hmo. simpl. rewrite Ha. simpl. rewrite Hb. simpl.
    rewrite Hkw. simpl. rewrite Hci. reflexivity.
  - intros Hc. unfold count_vol in Ha. rewrite Hc in Ha. injection Ha as <-. reflexivity.
  - intros Hc. unfold count_vol in Hb. rewrite Hc in Hb. injection Hb as <-. reflexivity.
Qed.

(** Both counts censored: [total_vol = 10]. *)
Lemma get_total_volume_censored_counts_witness :
  run (get_total_volume "tent chair" (probe_keys (PStr "secret")) 1700000000000)
      (fun _ => probe_response [candidate "tent chair" (PStr "< 10") (PStr "< 10") (PStr "low")])
  = Returned (success (PStr "tent chair") (PInt (5 + 5)) (PStr "low"))
  /\ (str_startswith_lt (PStr "< 10") = true -> 5%Z = 5%Z)
  /\ (str_startswith_lt (PStr "< 10") = true -> 5%Z = 5%Z).
Proof.
  apply (get_total_volume_censored_counts "tent chair" (probe_keys (PStr "secret"))
           1700000000000
           (mk_response 200 "" (Some (PDict [("keywordList",
              PList [candidate "tent chair" (PStr "< 10") (PStr "< 10") (PStr "low")])])))
           (PDict [("keywordList",
              PList [candidate "tent chair" (PStr "< 10") (PStr "< 10") (PStr "low")])])
           (PList [candidate "tent chair" (PStr "< 10") (PStr "< 10") (PStr "low")])
           (candidate "tent chair" (PStr "< 10") (PStr "< 10") (PStr "low")));
    vm_compute; reflexivity.
Defined.

End Fetcher_properties.

(** ** [load_api_keys] and its use by the fetchers *)

Section Keys_properties.
Local Open Scope string_scope.

Lemma load_api_keys_success_dict (root s api sk cust dl_id dl_secret : pyval) :
  getitem root "naver_api" = Ok s ->
  getitem s "AD_API_KEY" = Ok api ->
  getitem s "AD_SECRET_KEY" = Ok sk ->
  getitem s "AD_CUSTOMER_ID" = Ok cust ->
  getitem s "DATALAB_CLIENT_ID" = Ok dl_id ->
  getitem s "DATALAB_CLIENT_SECRET" = Ok dl_secret ->
  load_api_keys (Some root)
  = PDict [("AD_API_KEY", api); ("AD_SECRET_KEY", sk);
           ("AD_CUSTOMER_ID", PStr (py_str cust));
           ("DATALAB_ID", dl_id); ("DATALAB_SECRET", dl_secret);
           ("success", PBool true)].
Proof.
  intros H1 H2 H3 H4 H5 H6.
  unfold load_api_keys. rewrite H1. simpl.
  rewrite H2. simpl. rewrite H3. simpl. rewrite H4. simpl.
  rewrite H5. simpl. rewrite H6. reflexivity.
Qed.

Lemma load_api_keys_ok_keys (root s : pyval) (sk : string) :
  getitem root "naver_api" = Ok s ->
  keys_section_ok (Some root) = true ->
  getitem s "AD_SECRET_KEY" = Ok (PStr sk) ->
  keys_ok (load_api_keys (Some root)) = true.
Proof.
  intros Hs Hk Hsk. unfold keys_section_ok, secret_fields in Hk. rewrite Hs in Hk.
  simpl in Hk.
  destruct (getitem s "AD_API_KEY") as [api|] eqn:E1; [|discriminate].
  destruct (getitem s "AD_CUSTOMER_ID") as [cust|] eqn:E3;
    [|rewrite ?andb_false_r in Hk; discriminate].
  destruct (getitem s "DATALAB_CLIENT_ID") as [dl_id|] eqn:E4;
    [|rewrite ?andb_false_r in Hk; discriminate].
  destruct (getitem s "DATALAB_CLIENT_SECRET") as [dl_secret|] eqn:E5;
    [|rewrite ?andb_false_r in Hk; discriminate].
  rewrite (load_api_keys_success_dict root s api (PStr sk) cust dl_id dl_secret
                   Hs E1 Hsk E3 E4 E5).
  reflexivity.
Qed.

(** Caller and callee: keys loaded with a string secret key never make
    [get_total_volume] raise; it returns the failure or the success dict
    whatever the keyword, the time and the transport do. *)
Theorem loaded_keys_get_total_volume_returns (root s : pyval) (sk keyword : string)
    (now_ms : Z) (http : request -> http_result) :
  getitem root "naver_api" = Ok s ->
  keys_section_ok (Some root) = true ->
  getitem s "AD_SECRET_KEY" = Ok (PStr sk) ->
  exists v, run (get_total_volume keyword (load_api_keys (Some root)) now_ms) http
            = Returned v /\ well_shaped v.
Proof.
  intros Hs Hk Hsk.
  pose proof (load_api_keys_ok_keys root s sk Hs Hk Hsk) as Hok.
  destruct (get_total_volume_call keyword _ now_ms Hok) as (sk' & api & cust & _ & ->).
  simpl. eexists. split; [reflexivity|]. apply try_except_shaped.
Qed.

Lemma loaded_keys_get_total_volume_returns_witness :
  getitem (PDict [("naver_api",
             PDict [("AD_API_KEY", PStr "0100000000"); ("AD_SECRET_KEY", PStr "s");
                    ("AD_CUSTOMER_ID", PInt 123456); ("DATALAB_CLIENT_ID", PStr "id");
                    ("DATALAB_CLIENT_SECRET", PStr "csecret")])]) "naver_api"
    = Ok (PDict [("AD_API_KEY", PStr "0100000000"); ("AD_SECRET_KEY", PStr "s");
                 ("AD_CUSTOMER_ID", PInt 123456); ("DATALAB_CLIENT_ID", PStr "id");
                 ("DATALAB_CLIENT_SECRET", PStr "csecret")])
  /\ keys_section_ok (probe_secrets (PInt 123456) (PStr "s")) = true
  /\ getitem (PDict [("AD_API_KEY", PStr "0100000000"); ("AD_SECRET_KEY", PStr "s");
                     ("AD_CUSTOMER_ID", PInt 123456); ("DATALAB_CLIENT_ID", PStr "id");
                     ("DATALAB_CLIENT_SECRET", PStr "csecret")]) "AD_SECRET_KEY"
     = Ok (PStr "s")
  /\ exists v, run (get_total_volume "캠핑의자" (load_api_keys (probe_secrets (PInt 123456) (PStr "s")))
                      1700000000000) (fun _ => probe_response [])
               = Returned v /\ well_shaped v.
Proof.
  split; [reflexivity|]. split; [reflexivity|]. split; [reflexivity|].
  eapply loaded_keys_get_total_volume_returns; reflexivity.
Defined.

(** Caller and callee: [load_api_keys] accepts an integer secret key (only
    the customer id goes through [str]), and [get_total_volume] then raises
    [AttributeError] at [.strip()], before any request, for every keyword
    and time. *)
Theorem loaded_int_secret_get_total_volume_raises (root s : pyval) (z : Z)
    (keyword : string) (now_ms : Z) (http : request -> http_result) :
  getitem root "naver_api" = Ok s ->
  keys_section_ok (Some root) = true ->
  getitem s "AD_SECRET_KEY" = Ok (PInt z) ->
  getitem (load_api_keys (Some root)) "success" = Ok (PBool true)
  /\ get_total_volume keyword (load_api_keys (Some root)) now_ms
     = Done (Raised (AttributeError "'int' object has no attribute 'strip'"))
  /\ run (get_total_volume keyword (load_api_keys (Some root)) now_ms) http
     = Raised (AttributeError "'int' object has no attribute 'strip'").
Proof.
  intros Hs Hk Hsk.
  unfold keys_section_ok, secret_fields in Hk. rewrite Hs in Hk. simpl in Hk.
  destruct (getitem s "AD_API_KEY") as [api|] eqn:E1; [|discriminate].
  rewrite Hsk in Hk. simpl in Hk.
  destruct (getitem s "AD_CUSTOMER_ID") as [cust|] eqn:E3; [|discriminate].
  destruct (getitem s "DATALAB_CLIENT_ID") as [dl_id|] eqn:E4; [|discriminate].
  destruct (getitem s "DATALAB_CLIENT_SECRET") as [dl_secret|] eqn:E5; [|discriminate].
  rewrite (load_api_keys_success_dict root s api (PInt z) cust dl_id dl_secret
                   Hs E1 Hsk E3 E4 E5).
  split; [reflexivity|]. split; reflexivity.
Qed.

Lemma loaded_int_secret_get_total_volume_raises_witness :
  getitem (PDict [("naver_api",
             PDict [("AD_API_KEY", PStr "0100000000"); ("AD_SECRET_KEY", PInt 12345);
                    ("AD_CUSTOMER_ID", PInt 123456); ("DATALAB_CLIENT_ID", PStr "id");
                    ("DATALAB_CLIENT_SECRET", PStr "csecret")])]) "naver_api"
    = Ok (PDict [("AD_API_KEY", PStr "0100000000"); ("AD_SECRET_KEY", PInt 12345);
                 ("AD_CUSTOMER_ID", PInt 123456); ("DATALAB_CLIENT_ID", PStr "id");
                 ("DATALAB_CLIENT_SECRET", PStr "csecret")])
  /\ keys_section_ok (probe_secrets (PInt 123456) (PInt 12345)) = true
  /\ getitem (PDict [("AD_API_KEY", PStr "0100000000"); ("AD_SECRET_KEY", PInt 12345);
                     ("AD_CUSTOMER_ID", PInt 123456); ("DATALAB_CLIENT_ID", PStr "id");
                     ("DATALAB_CLIENT_SECRET", PStr "csecret")]) "AD_SECRET_KEY"
     = Ok (PInt 12345)
  /\ getitem (load_api_keys (probe_secrets (PInt 123456) (PInt 12345))) "success"
     = Ok (PBool true)
  /\ get_total_volume "캠핑의자" (load_api_keys (probe_secrets (PInt 123456) (PInt 12345)))
       1700000000000
     = Done (Raised (AttributeError "'int' object has no attribute 'strip'"))
  /\ run (get_total_volume "캠핑의자" (load_api_keys (probe_secrets (PInt 123456) (PInt 12345)))
            1700000000000) (fun _ => probe_response [])
     = Raised (AttributeError "'int' object has no attribute 'strip'").
Proof.
  split; [reflexivity|]. split; [reflexivity|]. split; [reflexivity|].
  eapply loaded_int_secret_get_total_volume_raises; reflexivity.
Defined.

(** Caller and callee: with keys that [load_api_keys] built successfully,
    [get_trend_data] never raises. *)
Theorem loaded_keys_get_trend_data_returns (secrets : option pyval)
    (keyword start_date end_date : string) (http : post_request -> trend_result) :
  keys_section_ok secrets = true ->
  exists v, run_trend (get_trend_data keyword start_date end_date (load_api_keys secrets)) http
            = TReturned v.
Proof.
  intros Hk. destruct secrets as [root|]; [|discriminate].
  unfold keys_section_ok, secret_fields in Hk.
  destruct (getitem root "naver_api") as [s|] eqn:Hs; [|discriminate]. simpl in Hk.
  destruct (getitem s "AD_API_KEY") as [api|] eqn:E1; [|discriminate].
  destruct (getitem s "AD_SECRET_KEY") as [sk|] eqn:E2; [|discriminate].
  destruct (getitem s "AD_CUSTOMER_ID") as [cust|] eqn:E3; [|discriminate].
  destruct (getitem s "DATALAB_CLIENT_ID") as [dl_id|] eqn:E4; [|discriminate].
  destruct (getitem s "DATALAB_CLIENT_SECRET") as [dl_secret|] eqn:E5; [|discriminate].
  rewrite (load_api_keys_success_dict root s api sk cust dl_id dl_secret
                   Hs E1 E2 E3 E4 E5).
  eexists. reflexivity.
Qed.

Lemma loaded_keys_get_trend_data_returns_witness :
  keys_section_ok (probe_secrets (PInt 123456) (PStr "s")) = true
  /\ exists v, run_trend (get_trend_data "캠핑의자" "2024-01-01" "2025-01-05"
                            (load_api_keys (probe_secrets (PInt 123456) (PStr "s"))))
                 (fun _ => TrendFailure "timed out")
               = TReturned v.
Proof.
  split; [reflexivity|]. apply loaded_keys_get_trend_data_returns. reflexivity.
Defined.

End Keys_properties.

Section Fetcher_edges.
Local Open Scope string_scope.

Lemma get_total_volume_run (keyword : string) (keys : pyval) (now_ms : Z) (r : http_result) :
  keys_ok keys = true ->
  run (get_total_volume keyword keys now_ms) (fun _ => r)
  = Returned (try_except (handle_response (remove_spaces keyword) r)).
Proof.
  intros Hk. destruct (get_total_volume_call keyword keys now_ms Hk) as (sk & api & cust & _ & ->).
  reflexivity.
Qed.

Lemma find_exact_skip (clean : string) (pre rest : list pyval) :
  Forall (fun it => exists k, getitem it "relKeyword" = Ok (PStr k)
                              /\ remove_spaces k <> clean) pre ->
  find_exact clean (pre ++ rest) = find_exact clean rest.
Proof.
  induction 1 as [|it pre' (k & Hg & Hne) _ IH]; [reflexivity|].
  simpl. rewrite Hg. simpl.
  destruct (String.eqb (remove_spaces k) clean) eqn:E.
  - apply String.eqb_eq in E. contradiction.
  - exact IH.
Qed.


(** A 200 response whose JSON object has no [keywordList], or an empty
    one, gives the "no result" failure; a JSON body that is an array is
    reported as ['list' object has no attribute 'get']. *)
Theorem get_total_volume_no_results (keyword : string) (keys : pyval) (now_ms : Z) :
  keys_ok keys = true ->
  (forall txt d, assoc "keywordList" d = None \/ assoc "keywordList" d = Some (PList []) ->
     run (get_total_volume keyword keys now_ms)
         (fun _ => Response (mk_response 200 txt (Some (PDict d))))
     = Returned (failure no_result_msg))
  /\ (forall txt l, run (get_total_volume keyword keys now_ms)
                       (fun _ => Response (mk_response 200 txt (Some (PList l))))
                    = Returned (failure "'list' object has no attribute 'get'")).
Proof.
  intros Hk. split.
  - intros txt d Hd. rewrite get_total_volume_run by exact Hk.
    unfold handle_response. simpl.
    destruct Hd as [-> | ->]; reflexivity.
  - intros txt l. rewrite get_total_volume_run by exact Hk. reflexivity.
Qed.

Lemma get_total_volume_no_results_witness :
  keys_ok (probe_keys (PStr "s")) = true
  /\ (forall txt d, assoc "keywordList" d = None \/ assoc "keywordList" d = Some (PList []) ->
        run (get_total_volume "tent" (probe_keys (PStr "s")) 1700000000000)
            (fun _ => Response (mk_response 200 txt (Some (PDict d))))
        = Returned (failure no_result_msg))
  /\ (forall txt l, run (get_total_volume "tent" (probe_keys (PStr "s")) 1700000000000)
                       (fun _ => Response (mk_response 200 txt (Some (PList l))))
                    = Returned (failure "'list' object has no attribute 'get'")).
Proof.
  split; [reflexivity|]. apply get_total_volume_no_results. reflexivity.
Defined.

(** The exact-match loop reads [item['relKeyword']] on every record it
    passes: a record without it (or not a dict) after non-matching records
    ends the call with that error's message, even when a later record
    matches the keyword exactly. *)
Theorem get_total_volume_malformed_candidate (keyword : string) (keys : pyval) (now_ms : Z)
    (pre post : list pyval) (bad : pyval) (e : exn) :
  keys_ok keys = true ->
  Forall (fun it => exists k, getitem it "relKeyword" = Ok (PStr k)
                              /\ remove_spaces k <> remove_spaces keyword) pre ->
  getitem bad "relKeyword" = Exc e ->
  run (get_total_volume keyword keys now_ms) (fun _ => probe_response (pre ++ bad :: post))
  = Returned (failure (exn_str e)).
Proof.
  intros Hk Hpre Hbad. rewrite get_total_volume_run by exact Hk.
  unfold handle_response, probe_response. simpl.
  unfold select_target. simpl.
  rewrite (find_exact_skip _ pre (bad :: post) Hpre). simpl. rewrite Hbad.
  reflexivity.
Qed.

Lemma get_total_volume_malformed_candidate_witness :
  keys_ok (probe_keys (PStr "s")) = true
  /\ Forall (fun it => exists k, getitem it "relKeyword" = Ok (PStr k)
                                /\ remove_spaces k <> remove_spaces "tent chair")
            [candidate "tent" (PInt 10) (PInt 20) (PStr "high")]
  /\ getitem (PDict [("keyword", PStr "tent")]) "relKeyword" = Exc (KeyError "relKeyword")
  /\ run (get_total_volume "tent chair" (probe_keys (PStr "s")) 1700000000000)
       (fun _ => probe_response ([candidate "tent" (PInt 10) (PInt 20) (PStr "high")]
                                 ++ PDict [("keyword", PStr "tent")]
                                 :: [candidate "tentchair" (PInt 1) (PInt 2) (PStr "low")]))
     = Returned (failure (exn_str (KeyError "relKeyword"))).
Proof.
  assert (Hpre : Forall (fun it => exists k, getitem it "relKeyword" = Ok (PStr k)
                                             /\ remove_spaces k <> remove_spaces "tent chair")
                        [candidate "tent" (PInt 10) (PInt 20) (PStr "high")]).
  { constructor; [|constructor]. exists "tent". split; [reflexivity|discriminate]. }
  split; [reflexivity|]. split; [exact Hpre|]. split; [reflexivity|].
  apply get_total_volume_malformed_candidate; [reflexivity | exact Hpre | reflexivity].
Defined.



(** The message of the witness, spelled out; and the cases where [int()]
    and [str.strip] go beyond ASCII: full-width digits are decimal digits,
    the ideographic space U+3000 is whitespace. *)
Example invalid_literal_1200 :
  invalid_literal (repr_cps false (cps "1,200"))
  = "invalid literal for int() with base 10: '1,200'".
Proof. vm_compute. reflexivity. Qed.

Example parse_int_fullwidth : parse_int "１２" = Some 12.
Proof. vm_compute. reflexivity. Qed.

Example strip_ideographic_space : strip "　Jefe " = "Jefe".
Proof. vm_compute. reflexivity. Qed.

End Fetcher_edges.

Section Rescaling_properties.
Local Open Scope Q_scope.

Lemma round_half_even_mono (x y : Q) : x <= y -> (round_half_even x <= round_half_even y)%Z.
Proof.
  intros Hxy. destruct (Z_le_gt_dec (round_half_even x) (round_half_even y)) as [|Hgt]; [assumption|].
  exfalso.
  assert (H1 : inject_Z (round_half_even y + 1) <= inject_Z (round_half_even x))
    by (rewrite <- Zle_Qle; lia).
  rewrite inject_Z_plus in H1. change (inject_Z 1) with 1 in H1.
  pose proof (round_half_even_near x). pose proof (round_half_even_near y).
  assert (Heq : x == y) by lra.
  rewrite (round_half_even_comp x y Heq) in Hgt. lia.
Qed.

(** With a non-negative baseline, a month with a ratio at most another's
    never gets the larger derived volume: the rescaled series keeps the
    order of the ratios (positions past the end read as ratio [0] and
    volume [0]). *)
Theorem search_volume_monotone (B : Z) (pts : list point) (i j : nat) :
  (0 <= B)%Z ->
  ratio (nth i pts no_point) <= ratio (nth j pts no_point) ->
  (nth i (search_volume B pts) 0 <= nth j (search_volume B pts) 0)%Z.
Proof.
  intros HB Hij. unfold search_volume.
  set (f := fun p => round_half_even (ratio p * multiplier B pts)).
  assert (Hf : f no_point = 0%Z).
  { unfold f. cbn [ratio no_point]. rewrite (round_half_even_comp _ 0) by ring. reflexivity. }
  rewrite <- Hf, !map_nth. unfold f. apply round_half_even_mono.
  apply Qmult_le_compat_r; [exact Hij | apply multiplier_nonneg; exact HB].
Qed.

Lemma search_volume_monotone_witness :
  (0 <= 1000)%Z
  /\ ratio (nth 0 [mk_point "2024-01" 37; mk_point "2024-02" 41; mk_point "2024-03" 80] no_point)
     <= ratio (nth 1 [mk_point "2024-01" 37; mk_point "2024-02" 41; mk_point "2024-03" 80] no_point)
  /\ (nth 0 (search_volume 1000 [mk_point "2024-01" 37; mk_point "2024-02" 41; mk_point "2024-03" 80]) 0
      <= nth 1 (search_volume 1000 [mk_point "2024-01" 37; mk_point "2024-02" 41; mk_point "2024-03" 80]) 0)%Z.
Proof.
  split; [lia|]. split; [discriminate|].
  apply search_volume_monotone; [lia | discriminate].
Defined.

End Rescaling_properties.

Section Growth_properties.
Local Open Scope Q_scope.

Lemma pct_sign (a b : Z) :
  (0 < b)%Z ->
  (0 < pct a b <-> (b < a)%Z) /\ (pct a b < 0 <-> (a < b)%Z) /\ (pct a b == 0 <-> a = b).
Proof.
  intros Hb. unfold pct.
  assert (Hq : 0 < inject_Z b) by (change 0 with (inject_Z 0); rewrite <- Zlt_Qlt; exact Hb).
  assert (E : inject_Z (a - b) / inject_Z b * 100 == (inject_Z a - inject_Z b) * (100 / inject_Z b)).
  { unfold Z.sub. rewrite inject_Z_plus, inject_Z_opp. field. lra. }
  assert (Hk : 0 < 100 / inject_Z b) by (apply Qlt_shift_div_l; lra).
  rewrite !E.
  assert (Pos : forall x, 0 < x * (100 / inject_Z b) <-> 0 < x).
  { intros x. split; intros H.
    - apply (Qmult_lt_r 0 x (100 / inject_Z b) Hk). lra.
    - apply (Qmult_lt_r 0 x (100 / inject_Z b) Hk) in H. lra. }
  assert (Neg : forall x, x * (100 / inject_Z b) < 0 <-> x < 0).
  { intros x. split; intros H.
    - apply (Qmult_lt_r x 0 (100 / inject_Z b) Hk). lra.
    - apply (Qmult_lt_r x 0 (100 / inject_Z b) Hk) in H. lra. }
  split; [|split].
  - rewrite Pos, Zlt_Qlt. lra.
  - rewrite Neg, Zlt_Qlt. lra.
  - split; intros H.
    + apply Qmult_integral in H. destruct H as [H|H]; [|lra].
      apply inject_Z_injective. lra.
    + subst. ring.
Qed.

(** When the previous month has a positive volume, the month-over-month
    growth is positive exactly when the last month is higher, negative
    exactly when it is lower, and zero exactly when they are equal. *)
Theorem mom_growth_sign (v : list Z) :
  (2 <= List.length v)%nat -> (0 < iloc_neg v 2)%Z ->
  (0 < mom_growth (growth_metrics v) <-> (iloc_neg v 2 < iloc_neg v 1)%Z)
  /\ (mom_growth (growth_metrics v) < 0 <-> (iloc_neg v 1 < iloc_neg v 2)%Z)
  /\ (mom_growth (growth_metrics v) == 0 <-> iloc_neg v 1 = iloc_neg v 2).
Proof.
  intros Hl Hp.
  assert (E : mom_growth (growth_metrics v) = pct (iloc_neg v 1) (iloc_neg v 2)).
  { unfold growth_metrics.
    destruct (13 <=? List.length v)%nat; [destruct (0 <? iloc_neg v 13)%Z|];
      cbn [mom_growth];
      (apply Nat.leb_le in Hl; rewrite Hl; apply Z.ltb_lt in Hp; rewrite Hp; reflexivity). }
  rewrite E. apply pct_sign. exact Hp.
Qed.

Lemma mom_growth_sign_witness :
  (2 <= List.length [120; 100; 150]%Z)%nat /\ (0 < iloc_neg [120; 100; 150]%Z 2)%Z
  /\ ((0 < mom_growth (growth_metrics [120; 100; 150]%Z)
       <-> (iloc_neg [120; 100; 150]%Z 2 < iloc_neg [120; 100; 150]%Z 1)%Z)
      /\ (mom_growth (growth_metrics [120; 100; 150]%Z) < 0
          <-> (iloc_neg [120; 100; 150]%Z 1 < iloc_neg [120; 100; 150]%Z 2)%Z)
      /\ (mom_growth (growth_metrics [120; 100; 150]%Z) == 0
          <-> iloc_neg [120; 100; 150]%Z 1 = iloc_neg [120; 100; 150]%Z 2)).
Proof.
  split; [simpl; lia|]. split; [reflexivity|].
  apply mom_growth_sign; [simpl; lia | reflexivity].
Defined.

End Growth_properties.

Section Decimal_properties.

Lemma isdig_value (c : ascii) :
  isdig c = true ->
  (48 <= byte_of c <= 57)%Z
  /\ decimal_value (byte_of c) = Some (byte_of c - 48)
  /\ (forall a, dstep a c = a * 10 + (byte_of c - 48)).
Proof.
  unfold isdig, byte_of. intros H. apply andb_true_iff in H. destruct H as [H1 H2].
  apply Nat.leb_le in H1, H2.
  assert (Hb : (48 <= Z.of_nat (nat_of_ascii c) <= 57)%Z) by lia.
  split; [exact Hb|]. split.
  - unfold decimal_value, ascii_digit.
    replace ((48 <=? Z.of_nat (nat_of_ascii c)) && (Z.of_nat (nat_of_ascii c) <=? 57))
      with true by (symmetry; apply andb_true_iff; split; apply Z.leb_le; lia).
    reflexivity.
  - intros a. unfold dstep. rewrite Nat2Z.inj_sub by lia. reflexivity.
Qed.

Lemma parse_digits_app (l : list ascii) (r : list Z) (acc : Z) (b : bool) :
  Forall (fun c => isdig c = true) l ->
  parse_digits decimal_value (map byte_of l ++ r) acc b
  = parse_digits decimal_value r (fold_left dstep l acc) (match l with [] => b | _ => true end).
Proof.
  intros H. revert acc b. induction H as [|c l Hc Hl IH]; intros acc b; [reflexivity|].
  destruct (isdig_value c Hc) as (_ & Hd & Hs).
  cbn [map app parse_digits fold_left]. rewrite Hd, IH, Hs. destruct l; reflexivity.
Qed.

Lemma nat_of_ascii_of_N (k : N) : (k < 256)%N -> nat_of_ascii (ascii_of_N k) = N.to_nat k.
Proof. intros H. unfold nat_of_ascii. rewrite N_ascii_embedding by exact H. reflexivity. Qed.

Lemma digit_char (m : N) :
  (m < 10)%N ->
  isdig (ascii_of_N (48 + m)) = true
  /\ Z.of_nat (nat_of_ascii (ascii_of_N (48 + m)) - 48) = Z.of_N m.
Proof.
  intros H. rewrite nat_of_ascii_of_N by lia. rewrite N2Nat.inj_add.
  change (N.to_nat 48) with 48%nat.
  assert (Hm : (N.to_nat m < 10)%nat) by (apply Nat2Z.inj_lt; rewrite N_nat_Z; change (Z.of_nat 10) with 10%Z; lia).
  unfold isdig. rewrite nat_of_ascii_of_N by lia. rewrite N2Nat.inj_add.
  change (N.to_nat 48) with 48%nat. split.
  - apply andb_true_iff; split; apply Nat.leb_le; lia.
  - rewrite <- N_nat_Z. f_equal. lia.
Qed.

Lemma digits_rev_spec (f : nat) (n : N) :
  (Z.of_N n < 10 ^ Z.of_nat (S f))%Z ->
  Forall (fun c => isdig c = true) (digits_rev (S f) n)
  /\ digits_rev (S f) n <> []
  /\ fold_left dstep (rev (digits_rev (S f) n)) 0 = Z.of_N n.
Proof.
  revert n. induction f as [|f IH]; intros n Hn.
  - assert (Hlt : (n < 10)%N) by lia.
    cbn [digits_rev]. replace (n <? 10)%N with true by (symmetry; apply N.ltb_lt; exact Hlt).
    assert (Hm : (n mod 10 = n)%N) by (apply N.mod_small; exact Hlt).
    rewrite Hm. destruct (digit_char n Hlt) as [Hd Hv].
    split; [constructor; [exact Hd | constructor]|].
    split; [discriminate|]. cbn [rev app fold_left]. unfold dstep. rewrite Hv. lia.
  - change (digits_rev (S (S f)) n) with
      (ascii_of_N (48 + n mod 10) :: (if (n <? 10)%N then [] else digits_rev (S f) (n / 10))).
    pose proof (N.mod_lt n 10 ltac:(discriminate)) as Hml.
    destruct (digit_char (n mod 10) Hml) as [Hd Hv].
    destruct (n <? 10)%N eqn:Hlt.
    + apply N.ltb_lt in Hlt.
      assert (Hm : (n mod 10 = n)%N) by (apply N.mod_small; exact Hlt).
      split; [constructor; [exact Hd | constructor]|].
      split; [discriminate|]. cbn [rev app fold_left]. unfold dstep. rewrite Hv, Hm. lia.
    + destruct (IH (n / 10)%N) as (Hf & Hne & Hv').
      { rewrite N2Z.inj_div. rewrite Nat2Z.inj_succ in Hn |- *.
        rewrite Z.pow_succ_r in Hn by lia. change (Z.of_N 10) with 10%Z.
        apply Z.div_lt_upper_bound; lia. }
      split; [constructor; assumption|]. split; [discriminate|].
      match goal with |- context [rev (?d :: ?l)] => change (rev (d :: l)) with (rev l ++ [d]) end.
      rewrite fold_left_app, Hv'. cbn [fold_left]. unfold dstep. rewrite Hv.
      pose proof (N.div_mod n 10 ltac:(discriminate)). lia.
Qed.

Lemma pos_size_nat_bound (p : positive) : Zpos p < 2 ^ Z.of_nat (Pos.size_nat p).
Proof.
  induction p as [p IH|p IH|]; cbn [Pos.size_nat]; try (simpl; lia);
    rewrite Nat2Z.inj_succ, Z.pow_succ_r by lia; lia.
Qed.

Lemma str_of_Z_fuel (n : N) : Z.of_N n < 10 ^ Z.of_nat (S (N.size_nat n)).
Proof.
  destruct n as [|p]; [simpl; lia|]. cbn [N.size_nat Z.of_N].
  pose proof (pos_size_nat_bound p).
  assert (2 ^ Z.of_nat (Pos.size_nat p) <= 10 ^ Z.of_nat (Pos.size_nat p))
    by (apply Z.pow_le_mono_l; lia).
  rewrite Nat2Z.inj_succ, Z.pow_succ_r by lia.
  assert (0 < 10 ^ Z.of_nat (Pos.size_nat p)) by (apply Z.pow_pos_nonneg; lia).
  lia.
Qed.

Ltac zcmp :=
  repeat match goal with
  | |- context [?a <=? ?b] =>
      first [replace (a <=? b) with true by (symmetry; apply Z.leb_le; lia)
            |replace (a <=? b) with false by (symmetry; apply Z.leb_gt; lia)]
  | |- context [?a <? ?b] =>
      first [replace (a <? b) with true by (symmetry; apply Z.ltb_lt; lia)
            |replace (a <? b) with false by (symmetry; apply Z.ltb_ge; lia)]
  | |- context [?a =? ?b] =>
      first [replace (a =? b) with false by (symmetry; apply Z.eqb_neq; lia)
            |replace (a =? b) with true by (symmetry; apply Z.eqb_eq; lia)]
  end.

Lemma utf8_decode_ascii (l : list ascii) :
  Forall (fun c => byte_of c < 128) l -> utf8_decode l = map byte_of l.
Proof.
  induction 1 as [|c l Hc _ IH]; [reflexivity|].
  cbn [utf8_decode map]. replace (byte_of c <? 192) with true by (symmetry; apply Z.ltb_lt; lia).
  rewrite IH. reflexivity.
Qed.

Lemma trim_none (p : Z -> bool) (l : list Z) :
  Forall (fun c => p c = false) l -> trim p l = l.
Proof.
  intros H. unfold trim.
  assert (D : forall m, Forall (fun c => p c = false) m -> drop_while p m = m).
  { intros m Hm. destruct Hm as [|c m Hc _]; [reflexivity|]. simpl. rewrite Hc. reflexivity. }
  rewrite (D l H), (D (rev l)) by (apply Forall_rev; exact H). apply rev_involutive.
Qed.

Lemma int_space_sign_digit (c : Z) : (c = 45 \/ 48 <= c <= 57) -> is_int_space_cp c = false.
Proof. intros H. unfold is_int_space_cp, is_space_cp. zcmp. reflexivity. Qed.

Lemma parse_digits_all (ds : list ascii) :
  Forall (fun c => isdig c = true) ds -> ds <> [] ->
  parse_digits decimal_value (map byte_of ds) 0 false = Some (fold_left dstep ds 0).
Proof.
  intros H Hne. rewrite <- (app_nil_r (map byte_of ds)). rewrite parse_digits_app by exact H.
  destruct ds; [contradiction|reflexivity].
Qed.

Lemma parse_int_str_of_Z (z : Z) : parse_int (str_of_Z z) = Some z.
Proof.
  unfold str_of_Z. rewrite Nat.add_1_r.
  destruct (digits_rev_spec (N.size_nat (Z.abs_N z)) (Z.abs_N z) (str_of_Z_fuel _))
    as (Hf & Hne & Hv).
  set (ds := digits_rev (S (N.size_nat (Z.abs_N z))) (Z.abs_N z)) in *.
  assert (Hf' : Forall (fun c => isdig c = true) (rev ds)) by (apply Forall_rev; exact Hf).
  assert (Hne' : rev ds <> []) by (intros E; apply Hne; rewrite <- (rev_involutive ds), E; reflexivity).
  assert (Hasc : Forall (fun c => byte_of c < 128) (rev ds)).
  { eapply Forall_impl; [|exact Hf']. intros c Hc. destruct (isdig_value c Hc). lia. }
  assert (Hsp : Forall (fun c => is_int_space_cp c = false) (map byte_of (rev ds))).
  { apply Forall_map. eapply Forall_impl; [|exact Hf']. intros c Hc.
    apply int_space_sign_digit. destruct (isdig_value c Hc). lia. }
  destruct (z <? 0) eqn:Hz.
  - change ("-" ++ string_of_list_ascii (rev ds))%string
      with (string_of_list_ascii ("-"%char :: rev ds)).
    unfold parse_int, cps. rewrite list_ascii_of_string_of_list_ascii.
    rewrite utf8_decode_ascii by (constructor; [reflexivity | exact Hasc]).
    cbn [map]. change (byte_of "-"%char) with 45.
    unfold parse_int_with.
    rewrite trim_none by (constructor; [reflexivity | exact Hsp]).
    change (45 =? 45) with true. cbv iota.
    rewrite (parse_digits_all _ Hf' Hne'), Hv, N2Z.inj_abs_N. simpl.
    apply Z.ltb_lt in Hz. f_equal. lia.
  - unfold parse_int, cps. rewrite list_ascii_of_string_of_list_ascii.
    rewrite utf8_decode_ascii by exact Hasc.
    unfold parse_int_with. rewrite trim_none by exact Hsp.
    apply Z.ltb_ge in Hz.
    transitivity (Some (fold_left dstep (rev ds) 0));
      [| rewrite Hv, N2Z.inj_abs_N; f_equal; lia].
    rewrite <- (parse_digits_all _ Hf' Hne').
    destruct (rev ds) as [|c r] eqn:Er; [contradiction|].
    destruct (isdig_value c (Forall_inv Hf')) as (Hb & _ & _).
    cbn [map]. zcmp. reflexivity.
Qed.

Lemma str_of_Z_not_lt (z : Z) : String.prefix "<" (str_of_Z z) = false.
Proof.
  unfold str_of_Z. destruct (z <? 0); [reflexivity|].
  rewrite Nat.add_1_r.
  destruct (digits_rev_spec (N.size_nat (Z.abs_N z)) (Z.abs_N z) (str_of_Z_fuel _))
    as (Hf & _ & _).
  apply Forall_rev in Hf.
  destruct (rev (digits_rev _ _)) as [|c r]; [reflexivity|].
  apply Forall_inv in Hf. cbn [string_of_list_ascii String.prefix].
  destruct (ascii_dec "<" c) as [<-|]; [discriminate Hf | reflexivity].
Qed.

(** [int()] reads back [str()]: a count delivered as the decimal text of an
    integer (sign included) is counted as that integer, exactly like the
    integer itself. *)
Theorem count_vol_decimal_text (z : Z) :
  count_vol (PStr (str_of_Z z)) = Ok z /\ count_vol (PInt z) = Ok z.
Proof.
  unfold count_vol, str_startswith_lt. rewrite str_of_Z_not_lt. simpl.
  rewrite parse_int_str_of_Z. split; reflexivity.
Qed.

End Decimal_properties.

Module CryptoLen.
Import Crypto.

Lemma round_step_length (st : list Z) (kw : Z * Z) :
  List.length (round_step st kw) = List.length st.
Proof.
  unfold round_step.
  do 9 (destruct st as [|? st]; [reflexivity|]). reflexivity.
Qed.

Lemma fold_round_step_length (kws : list (Z * Z)) (st : list Z) :
  List.length (fold_left round_step kws st) = List.length st.
Proof.
  revert st. induction kws as [|kw kws IH]; intros st; [reflexivity|].
  simpl. rewrite IH. apply round_step_length.
Qed.

Lemma compress_length (hv block : list Z) :
  List.length (compress hv block) = List.length hv.
Proof.
  unfold compress. rewrite length_map, length_combine, fold_round_step_length.
  apply Nat.min_id.
Qed.

Lemma fold_compress_length (blocks : list (list Z)) (hv : list Z) :
  List.length (fold_left compress blocks hv) = List.length hv.
Proof.
  revert hv. induction blocks as [|b bs IH]; intros hv; [reflexivity|].
  simpl. rewrite IH. apply compress_length.
Qed.

Lemma be_bytes_length (n : nat) (x : Z) : List.length (be_bytes n x) = n.
Proof.
  revert x. induction n as [|n IH]; intros x; [reflexivity|].
  simpl. rewrite length_app, IH. simpl. lia.
Qed.

Lemma flat_map_be_bytes_length (ws : list Z) :
  List.length (flat_map (be_bytes 4) ws) = (4 * List.length ws)%nat.
Proof.
  induction ws as [|w ws IH]; [reflexivity|].
  cbn [flat_map]. rewrite length_app, be_bytes_length, IH. cbn [List.length]. lia.
Qed.

Lemma sha256_length (msg : list Z) : List.length (sha256 msg) = 32%nat.
Proof.
  unfold sha256. rewrite flat_map_be_bytes_length, fold_compress_length. reflexivity.
Qed.

Lemma b64_groups_length (fuel : nat) (bs : list Z) :
  (List.length bs <= 3 * fuel)%nat ->
  List.length (b64_groups fuel bs) = (4 * ((List.length bs + 2) / 3))%nat.
Proof.
  revert bs. induction fuel as [|f IH]; intros bs Hl.
  - destruct bs; [reflexivity | simpl in Hl; lia].
  - destruct bs as [|a [|b [|c r]]]; try reflexivity.
    cbn [b64_groups List.length]. rewrite IH by (simpl in Hl; lia).
    replace (S (S (S (List.length r))) + 2)%nat with (List.length r + 2 + 1 * 3)%nat by lia.
    rewrite Nat.div_add by lia. lia.
Qed.

End CryptoLen.

Lemma string_of_list_ascii_length (l : list ascii) :
  String.length (string_of_list_ascii l) = List.length l.
Proof. induction l as [|c l IH]; [reflexivity|]. simpl. rewrite IH. reflexivity. Qed.

(** Whatever the secret key and the timestamp, the [X-Signature] header is
    44 characters long: the base64 text of a 32-byte HMAC-SHA256 digest. *)
Theorem signature_length (secret_key timestamp : string) :
  String.length (signature secret_key timestamp) = 44%nat.
Proof.
  unfold signature, Crypto.b64encode. rewrite string_of_list_ascii_length.
  assert (H : List.length (Crypto.hmac_sha256 (Crypto.utf8 secret_key)
                (Crypto.utf8 (timestamp ++ "." ++ method ++ "." ++ uri)%string)) = 32%nat)
    by (unfold Crypto.hmac_sha256; apply CryptoLen.sha256_length).
  rewrite CryptoLen.b64_groups_length; rewrite H; [reflexivity | lia].
Qed.
